(** * Data-Analysis-Assignment: the cleaning, wrangling and reporting script

    A shallow embedding of [main.py].  The script reads one table, cleans it
    column by column, fences the Sales outliers, adds two derived columns,
    prints a few aggregates and writes the table back to disk.

    Python floats are IEEE binary64 numbers: they are modelled by Rocq's
    primitive floats, so [nan], the infinities, signed zeros and rounding are
    those of the running program.  A pandas frame is modelled as the list of
    its rows in index order; the index labels themselves are never looked
    at by the script (every column assignment is aligned on the frame's own
    index) and they are not written to the output file. *)

From Stdlib Require Import List String ZArith Bool Arith Lia Floats Sorted.
Import ListNotations.

Set Implicit Arguments.
Local Open Scope float_scope.

(** ** Exceptions and fallible computations *)

Inductive exn : Set :=
| ValueError   (* to_numeric met text that is no number *)
| KeyError     (* [series[0]] on an empty series *).

Inductive result (A : Type) : Type :=
| Ok (a : A)
| Raise (e : exn).

Arguments Ok {A} a.
Arguments Raise {A} e.

Definition bind {A B} (c : result A) (k : A -> result B) : result B :=
  match c with
  | Ok a => k a
  | Raise e => Raise e
  end.

Notation "x <- c ;; k" := (bind c (fun x => k))
  (at level 61, c at next level, right associativity).

(** ** Cells and rows *)

(** A cell of a numeric column as [read_csv] typed it, with what
    [to_numeric] reads from it.  A column without text is read as float64
    ([Num]; the missing marker is the float [nan]) or, when it holds whole
    numbers only, as int64 ([Int]).  In a column that holds any text every
    cell that is not missing is text: [NumericText s x] is the text [s],
    which [to_numeric] reads as the number [x], and [NonNumeric s] is text
    that is no number.  What is read from a text is determined by the
    text. *)
Inductive numcell : Set :=
| Num (x : float)
| Int (n : Z)
| NumericText (s : string) (x : float)
| NonNumeric (s : string).

(** A cell of the Date column: [read_csv] leaves it as text.  [DateText t]
    is the time stamp [t] (nanoseconds since the epoch) spelled in the
    standard form, the one [to_csv] writes, one text for every time stamp;
    [DateAs s t] is any other text [s] that [to_datetime] reads as [t];
    [NonDate s] is text that is no date. *)
Inductive datecell : Set :=
| MissingDate
| DateText (t : Z)
| DateAs (s : string) (t : Z)
| NonDate (s : string).

(** The float64 nearest to a whole number (ties to even): what the later
    operations of the script make of an int64 cell. *)
Definition int_to_float (n : Z) : float :=
  SF2Prim (binary_normalize prec emax n 0%Z false).

(** One row of the frame.  The five columns that the cleaner re-types are
    type parameters: the frame starts with raw cells and ends with floats
    and time stamps.  A missing text cell is [None], and so is [NaT]. *)
Record row (TAge TSales TProfit TDate TDiscount : Type) : Type := mkRow {
  Age : TAge;
  Gender : option string;
  Sales : TSales;
  Profit : TProfit;
  Date : TDate;
  Category : option string;
  Discount : TDiscount
}.

Arguments mkRow {TAge TSales TProfit TDate TDiscount} _ _ _ _ _ _ _.
Arguments Age {TAge TSales TProfit TDate TDiscount} r.
Arguments Gender {TAge TSales TProfit TDate TDiscount} r.
Arguments Sales {TAge TSales TProfit TDate TDiscount} r.
Arguments Profit {TAge TSales TProfit TDate TDiscount} r.
Arguments Date {TAge TSales TProfit TDate TDiscount} r.
Arguments Category {TAge TSales TProfit TDate TDiscount} r.
Arguments Discount {TAge TSales TProfit TDate TDiscount} r.

Definition set_Age {A A' S P D Di} (r : row A S P D Di) (v : A') : row A' S P D Di :=
  mkRow v (Gender r) (Sales r) (Profit r) (Date r) (Category r) (Discount r).
Definition set_Gender {A S P D Di} (r : row A S P D Di) (v : option string) : row A S P D Di :=
  mkRow (Age r) v (Sales r) (Profit r) (Date r) (Category r) (Discount r).
Definition set_Sales {A S S' P D Di} (r : row A S P D Di) (v : S') : row A S' P D Di :=
  mkRow (Age r) (Gender r) v (Profit r) (Date r) (Category r) (Discount r).
Definition set_Profit {A S P P' D Di} (r : row A S P D Di) (v : P') : row A S P' D Di :=
  mkRow (Age r) (Gender r) (Sales r) v (Date r) (Category r) (Discount r).
Definition set_Date {A S P D D' Di} (r : row A S P D Di) (v : D') : row A S P D' Di :=
  mkRow (Age r) (Gender r) (Sales r) (Profit r) v (Category r) (Discount r).
Definition set_Discount {A S P D Di Di'} (r : row A S P D Di) (v : Di') : row A S P D Di' :=
  mkRow (Age r) (Gender r) (Sales r) (Profit r) (Date r) (Category r) v.

(** The frame returned by [read_csv], and the frame returned by the cleaner. *)
Definition raw_row : Type := row numcell numcell numcell datecell numcell.
Definition clean_row : Type := row float float float (option Z) float.
Definition RawFrame : Type := list raw_row.
Definition DataFrame : Type := list clean_row.

(** [df[name]] and [df[name] = series]. *)
Definition col {R C} (f : R -> C) (df : list R) : list C := map f df.
Definition assign {R C R'} (set : R -> C -> R') (df : list R) (s : list C) : list R' :=
  map (fun rc => set (fst rc) (snd rc)) (combine df s).

(** ** Series operations *)

(** [to_numeric(s)], default [errors='raise']. *)
Definition to_numeric_cell (c : numcell) : result float :=
  match c with
  | Num x => Ok x
  | Int n => Ok (int_to_float n)
  | NumericText _ x => Ok x
  | NonNumeric _ => Raise ValueError
  end.

Fixpoint to_numeric (s : list numcell) : result (list float) :=
  match s with
  | [] => Ok []
  | c :: s' =>
      x <- to_numeric_cell c ;;
      xs <- to_numeric s' ;;
      Ok (x :: xs)
  end.

(** [to_numeric(s, errors='coerce')]. *)
Definition coerce_cell (c : numcell) : float :=
  match c with
  | Num x => x
  | Int n => int_to_float n
  | NumericText _ x => x
  | NonNumeric _ => nan
  end.

Definition to_numeric_coerce (s : list numcell) : list float := map coerce_cell s.

(** [to_datetime(s, errors='coerce')]. *)
Definition coerce_date (c : datecell) : option Z :=
  match c with
  | DateText t => Some t
  | DateAs _ t => Some t
  | MissingDate | NonDate _ => None
  end.

Definition to_datetime_coerce (s : list datecell) : list (option Z) := map coerce_date s.

Definition dropna (s : list float) : list float :=
  filter (fun x => negb (is_nan x)) s.

Definition fillna_value (v x : float) : float := if is_nan x then v else x.
Definition fillna (s : list float) (v : float) : list float := map (fillna_value v) s.

Definition fillna_text (v : string) (c : option string) : option string :=
  match c with
  | None => Some v
  | Some s => Some s
  end.

Definition replace_text (old new : string) (c : option string) : option string :=
  match c with
  | Some s => if String.eqb s old then Some new else Some s
  | None => None
  end.

Definition fillna_date (v : Z) (c : option Z) : option Z :=
  match c with
  | None => Some v
  | Some t => Some t
  end.

(** Ascending sort of a series without [nan]. *)
Fixpoint insert_sorted (x : float) (s : list float) : list float :=
  match s with
  | [] => [x]
  | y :: s' => if x <=? y then x :: y :: s' else y :: insert_sorted x s'
  end.

Definition sort (s : list float) : list float := fold_right insert_sorted [] s.

(** [numpy.median]: [nan] on an empty array, the middle element of the
    sorted array, or the mean of the two middle ones. *)
Definition median (s : list float) : float :=
  let a := sort s in
  let n := List.length a in
  match n with
  | O => nan
  | _ =>
      if Nat.odd n then nth (n / 2) a nan
      else (nth (n / 2 - 1) a nan + nth (n / 2) a nan) / 2
  end.

(** numpy's linear interpolation between two neighbours. *)
Definition lerp (a b t : float) : float :=
  let diff_b_a := b - a in
  if 0.5 <=? t then b - diff_b_a * (1 - t) else a + diff_b_a * t.

Definition quarter_fraction (r : nat) : float :=
  match r with
  | 0%nat => 0
  | 1%nat => 0.25
  | 2%nat => 0.5
  | _ => 0.75
  end.

(** [s.quantile(k/4)] with the default linear interpolation: [nan] entries
    are skipped; on what is left, sorted, the virtual index is
    [(n-1) * k/4], an exact binary64 product whose floor and fraction are
    computed here on integers. *)
Definition quantile (s : list float) (k : nat) : float :=
  let a := sort (dropna s) in
  let n := List.length a in
  match n with
  | O => nan
  | _ =>
      let pos := (k * (n - 1))%nat in
      let previous := (pos / 4)%nat in
      let next := Nat.min (previous + 1) (n - 1) in
      lerp (nth previous a nan) (nth next a nan) (quarter_fraction (pos mod 4))
  end.

(** [s.mode()]: the valid values that occur most often, in ascending order. *)
Fixpoint valid_dates (s : list (option Z)) : list Z :=
  match s with
  | [] => []
  | Some t :: s' => t :: valid_dates s'
  | None :: s' => valid_dates s'
  end.

Definition occurrences (t : Z) (l : list Z) : nat := count_occ Z.eq_dec l t.

Definition max_occurrences (l : list Z) : nat :=
  fold_right Nat.max 0%nat (map (fun t => occurrences t l) l).

Fixpoint insert_date (t : Z) (l : list Z) : list Z :=
  match l with
  | [] => [t]
  | u :: l' => if (t <=? u)%Z then t :: u :: l' else u :: insert_date t l'
  end.

Definition sort_dates (l : list Z) : list Z := fold_right insert_date [] l.

Definition mode (s : list (option Z)) : list Z :=
  let vals := valid_dates s in
  let best := max_occurrences vals in
  sort_dates (nodup Z.eq_dec (filter (fun t => Nat.eqb (occurrences t vals) best) vals)).

(** [series[0]]. *)
Definition item0 {A} (s : list A) : result A :=
  match s with
  | [] => Raise KeyError
  | x :: _ => Ok x
  end.

(** ** drop_duplicates *)

(** [drop_duplicates] runs on the frame as [read_csv] typed it, before any
    conversion.  pandas hashes the cells of a row: two floats are the same
    key when they compare equal or are both [nan], two whole numbers when
    they are the same number, two texts when they are the same text (and
    then the same is read from both). *)
Definition float_same (x y : float) : bool :=
  (x =? y) || (is_nan x && is_nan y).

Definition numcell_same (c d : numcell) : bool :=
  match c, d with
  | Num x, Num y => float_same x y
  | Int n, Int m => Z.eqb n m
  | NumericText s x, NumericText s' y => String.eqb s s' && float_same x y
  | NonNumeric s, NonNumeric s' => String.eqb s s'
  | _, _ => false
  end.

Definition datecell_same (c d : datecell) : bool :=
  match c, d with
  | MissingDate, MissingDate => true
  | DateText t, DateText u => Z.eqb t u
  | DateAs s t, DateAs s' u => String.eqb s s' && Z.eqb t u
  | NonDate s, NonDate s' => String.eqb s s'
  | _, _ => false
  end.

Definition text_same (c d : option string) : bool :=
  match c, d with
  | None, None => true
  | Some s, Some s' => String.eqb s s'
  | _, _ => false
  end.

Definition raw_row_same (r r' : raw_row) : bool :=
  numcell_same (Age r) (Age r') && text_same (Gender r) (Gender r') &&
  numcell_same (Sales r) (Sales r') && numcell_same (Profit r) (Profit r') &&
  datecell_same (Date r) (Date r') && text_same (Category r) (Category r') &&
  numcell_same (Discount r) (Discount r').

(** Keep the first occurrence of every row. *)
Fixpoint drop_duplicates_from (seen : list raw_row) (df : RawFrame) : RawFrame :=
  match df with
  | [] => []
  | r :: df' =>
      if existsb (raw_row_same r) seen then drop_duplicates_from seen df'
      else r :: drop_duplicates_from (r :: seen) df'
  end.

Definition drop_duplicates (df : RawFrame) : RawFrame := drop_duplicates_from [] df.

(** ** The cleaner *)

(** Lines 26-29: Age is converted strictly, then filled with its median. *)
Definition clean_Age {S P D Di} (messy_df : list (row numcell S P D Di))
  : result (list (row float S P D Di)) :=
  age <- to_numeric (col Age messy_df) ;;
  let messy_df := assign set_Age messy_df age in
  let AgeMedian := median (dropna (col Age messy_df)) in
  Ok (assign set_Age messy_df (fillna (col Age messy_df) AgeMedian)).

(** Lines 36-37. *)
Definition clean_Gender {A S P D Di} (messy_df : list (row A S P D Di))
  : list (row A S P D Di) :=
  let messy_df := assign set_Gender messy_df
                    (map (fillna_text "Other") (col Gender messy_df)) in
  assign set_Gender messy_df (map (replace_text "" "Other") (col Gender messy_df)).

(** Lines 43-46. *)
Definition clean_Sales {A P D Di} (messy_df : list (row A numcell P D Di))
  : list (row A float P D Di) :=
  let messy_df := assign set_Sales messy_df (to_numeric_coerce (col Sales messy_df)) in
  let salesMedian := median (dropna (col Sales messy_df)) in
  assign set_Sales messy_df (fillna (col Sales messy_df) salesMedian).

(** Lines 51-54. *)
Definition clean_Profit {A S D Di} (messy_df : list (row A S numcell D Di))
  : list (row A S float D Di) :=
  let messy_df := assign set_Profit messy_df (to_numeric_coerce (col Profit messy_df)) in
  let profitsMedian := median (dropna (col Profit messy_df)) in
  assign set_Profit messy_df (fillna (col Profit messy_df) profitsMedian).

(** Lines 59-65: [mode()[0]] raises on a column without a valid date. *)
Definition clean_Date {A S P Di} (messy_df : list (row A S P datecell Di))
  : result (list (row A S P (option Z) Di)) :=
  let messy_df := assign set_Date messy_df (to_datetime_coerce (col Date messy_df)) in
  modal_date <- item0 (mode (col Date messy_df)) ;;
  Ok (assign set_Date messy_df (map (fillna_date modal_date) (col Date messy_df))).

Definition category_present {A S P D Di} (r : row A S P D Di) : bool :=
  match Category r with
  | Some _ => true
  | None => false
  end.

(** Line 70: [df.dropna(subset=["Category"])]. *)
Definition dropna_Category {A S P D Di} (df : list (row A S P D Di))
  : list (row A S P D Di) :=
  filter category_present df.

(** Lines 76-77. *)
Definition clean_Discount {A S P D} (messy_df : list (row A S P D numcell))
  : list (row A S P D float) :=
  let messy_df := assign set_Discount messy_df
                    (to_numeric_coerce (col Discount messy_df)) in
  assign set_Discount messy_df (fillna (col Discount messy_df) 0).

(** Lines 82-88: the two fences, from the quartiles of a Sales column. *)
Definition lower_range (sales : list float) : float := quantile sales 1.
Definition higher_range (sales : list float) : float := quantile sales 3.
Definition interQuartRange (sales : list float) : float :=
  higher_range sales - lower_range sales.
Definition upperB (sales : list float) : float :=
  higher_range sales + 1.5 * interQuartRange sales.
Definition lowerB (sales : list float) : float :=
  lower_range sales - 1.5 * interQuartRange sales.

(** Line 91: the row mask [~((Sales < lowerB) | (Sales > upperB))]. *)
Definition not_outlying (lo hi x : float) : bool :=
  negb ((x <? lo) || (hi <? x)).

Definition remove_outliers (messy_df : DataFrame) : DataFrame :=
  let sales := col Sales messy_df in
  filter (fun r => not_outlying (lowerB sales) (upperB sales) (Sales r)) messy_df.

(** Lines 17-77: everything before the outlier fence. *)
Definition clean_columns (csv : RawFrame) : result DataFrame :=
  let messy_df := drop_duplicates csv in
  messy_df <- clean_Age messy_df ;;
  let messy_df := clean_Gender messy_df in
  let messy_df := clean_Sales messy_df in
  let messy_df := clean_Profit messy_df in
  messy_df <- clean_Date messy_df ;;
  let messy_df := dropna_Category messy_df in
  let messy_df := clean_Discount messy_df in
  Ok messy_df.

(** [readCsvAndCleanData], applied to the frame that [read_csv] returned. *)
Definition readCsvAndCleanData (csv : RawFrame) : result DataFrame :=
  messy_df <- clean_columns csv ;;
  Ok (remove_outliers messy_df).

(** ** The wrangler *)

(** A row of the frame once the two derived columns are there. *)
Record wrangled_row : Type := mkWrangled {
  original : clean_row;
  Profit_Margin : float;
  Mature_Status : string
}.

(** pandas' grouped sum of one group: missing values are skipped and the
    running sum carries a Kahan compensation term, reset when it is [nan]. *)
Fixpoint group_sum_from (sumx compensation : float) (vals : list float) : float :=
  match vals with
  | [] => sumx
  | val :: rest =>
      if is_nan val then group_sum_from sumx compensation rest
      else
        let y := val - compensation in
        let t := sumx + y in
        let c := t - sumx - y in
        group_sum_from t (if is_nan c then 0 else c) rest
  end.

Definition group_sum (vals : list float) : float := group_sum_from 0 0 vals.

Fixpoint present_categories (s : list (option string)) : list string :=
  match s with
  | [] => []
  | Some c :: s' => c :: present_categories s'
  | None :: s' => present_categories s'
  end.

Fixpoint insert_text (c : string) (l : list string) : list string :=
  match l with
  | [] => [c]
  | d :: l' => if String.leb c d then c :: d :: l' else d :: insert_text c l'
  end.

Definition sort_text (l : list string) : list string := fold_right insert_text [] l.

(** The group keys of [groupby("Category")]: the distinct categories that
    are present, in ascending order. *)
Definition group_keys {A S P D Di} (df : list (row A S P D Di)) : list string :=
  sort_text (nodup string_dec (present_categories (col Category df))).

Definition in_group {A S P D Di} (c : string) (r : row A S P D Di) : bool :=
  match Category r with
  | Some d => String.eqb d c
  | None => false
  end.

(** [df.groupby("Category")["Discount"].sum().reset_index()]. *)
Definition discountByProducts (df : DataFrame) : list (string * float) :=
  map (fun c => (c, group_sum (col Discount (filter (in_group c) df))))
      (group_keys df).

Definition mature_status (x : float) : string :=
  if 25 <=? x then "Mature"%string else "Not Mature"%string.

(** [performDataWrangling]: the frame it returns and the table it prints. *)
Definition performDataWrangling (cleaned_df : DataFrame)
  : list wrangled_row * list (string * float) :=
  let profit_margin :=
    map (fun pq => fst pq / snd pq)
        (combine (col Profit cleaned_df) (col Sales cleaned_df)) in
  let with_margin := combine cleaned_df profit_margin in
  let printed := discountByProducts cleaned_df in
  let status := map mature_status (col Age cleaned_df) in
  (map (fun rs => mkWrangled (fst (fst rs)) (snd (fst rs)) (snd rs))
       (combine with_margin status),
   printed).

(** ** The analyzer and the program *)

Inductive figure : Type :=
| Scatterplot (points : list (float * float * option string))
| Boxplot (points : list (option string * float))
| Histogram (bins : nat) (values : list float).

Section Program.

(** What pandas prints for [describe], [corr], [pivot_table] and the
    grouped means: library reports, each computed from the frame it is
    handed. *)
Variable Report : Type.
Variable describe : list wrangled_row -> Report.
Variable corr : list (float * float) -> Report.
Variable pivot_table_mean_round2 : list wrangled_row -> Report.
Variable groupby_mean_round2 : list wrangled_row -> Report.

Inductive printed : Type :=
| PrintTable (t : list (string * float))
| PrintReport (r : Report)
| PrintText (s : string).

(** The state a run of the script acts on: the one frame object that the
    three stages share, the console and the figures shown so far. *)
Record session : Type := mkSession {
  frame : list wrangled_row;
  stdout : list printed;
  shown : list figure
}.

Definition console_print (p : printed) (s : session) : session :=
  mkSession (frame s) (stdout s ++ [p]) (shown s).

Definition plt_show (f : figure) (s : session) : session :=
  mkSession (frame s) (stdout s) (shown s ++ [f]).

Definition sales_discount (df : list wrangled_row) : list (float * float) :=
  map (fun r => (Sales (original r), Discount (original r))) df.

Definition performEDA (s : session) : session :=
  let s := console_print (PrintReport (describe (frame s))) s in
  let s := console_print (PrintText "Correlation matrix:") s in
  let corrMatrix := corr (sales_discount (frame s)) in
  let s := console_print (PrintReport corrMatrix) s in
  let pivot := pivot_table_mean_round2 (frame s) in
  let s := console_print (PrintText (String (Ascii.ascii_of_nat 10)
                               "Average Sales by Category and Discounts:")) s in
  let s := console_print (PrintReport pivot) s in
  let avgGroupedDiscAndSales := groupby_mean_round2 (frame s) in
  let s := console_print (PrintText "Average Discount and Sales per Category:") s in
  let s := console_print (PrintReport avgGroupedDiscAndSales) s in
  let s := plt_show (Scatterplot
                   (map (fun r => (Discount (original r), Sales (original r),
                                   Category (original r))) (frame s))) s in
  let s := plt_show (Boxplot
                   (map (fun r => (Category (original r), Discount (original r)))
                        (frame s))) s in
  plt_show (Histogram 20 (map (fun r => Discount (original r)) (frame s))) s.

(** The program: what is on the console, what was shown, and the rows
    written to [cleanFile.csv]. *)
Record outcome : Type := mkOutcome {
  final : session;
  cleanFile : list wrangled_row
}.

Definition main (file_csv : RawFrame) : result outcome :=
  cleaned <- readCsvAndCleanData file_csv ;;
  let wrangled := performDataWrangling cleaned in
  let s := mkSession (fst wrangled) [PrintTable (snd wrangled)] [] in
  let s := performEDA s in
  Ok (mkOutcome s (frame s)).

End Program.

(** ** Vocabulary of the statements *)

Definition numeric (c : numcell) : bool :=
  match c with
  | Num _ | Int _ | NumericText _ _ => true
  | NonNumeric _ => false
  end.

Definition valid_date (c : datecell) : bool :=
  match coerce_date c with
  | Some _ => true
  | None => false
  end.

(** The median that fills a numeric column: it is taken over the entries
    that are numbers. *)
Definition fill_median (s : list numcell) : float :=
  median (dropna (to_numeric_coerce s)).

(** What the column steps make of one row, given the three medians and the
    modal date of the frame it sits in. *)
Definition finish_row (AgeMedian salesMedian profitsMedian : float) (modal_date : Z)
    (r : raw_row) : clean_row :=
  mkRow (fillna_value AgeMedian (coerce_cell (Age r)))
        (replace_text "" "Other" (fillna_text "Other" (Gender r)))
        (fillna_value salesMedian (coerce_cell (Sales r)))
        (fillna_value profitsMedian (coerce_cell (Profit r)))
        (fillna_date modal_date (coerce_date (Date r)))
        (Category r)
        (fillna_value 0 (coerce_cell (Discount r))).

(** A cell that holds a number, and a cell whose number, if it holds one,
    is finite. *)
Definition holds_number (c : numcell) : bool :=
  match c with
  | Num x | NumericText _ x => negb (is_nan x)
  | Int n => negb (is_nan (int_to_float n))
  | NonNumeric _ => false
  end.

Definition finite_if_number (c : numcell) : bool :=
  match c with
  | Num x | NumericText _ x => is_nan x || is_finite x
  | Int n => is_nan (int_to_float n) || is_finite (int_to_float n)
  | NonNumeric _ => true
  end.

(** A text cell taken for a missing one. *)
Definition text_as_missing (c : numcell) : numcell :=
  match c with
  | NonNumeric _ => Num nan
  | _ => c
  end.

(** A column with at least one number and no infinite one. *)
Definition has_median (s : list numcell) : bool :=
  existsb holds_number s && forallb finite_if_number s.

(** The frame before the fence, given the modal date: the rows with a
    Category among those that are left once duplicates are gone. *)
Definition cleaned_rows (csv : RawFrame) (modal_date : Z) : DataFrame :=
  map (finish_row (fill_median (col Age (drop_duplicates csv)))
                  (fill_median (col Sales (drop_duplicates csv)))
                  (fill_median (col Profit (drop_duplicates csv)))
                  modal_date)
      (dropna_Category (drop_duplicates csv)).

(** A row without a missing value in the columns the cleaner fills. *)
Definition free_of_missing (r : clean_row) : Prop :=
  is_nan (Age r) = false /\ is_nan (Sales r) = false /\ is_nan (Profit r) = false /\
  Date r <> None /\ is_nan (Discount r) = false /\ Category r <> None.

(** The rows that [dropna] and the fence take out. *)
Definition rows_without_Category {A S P D Di} (df : list (row A S P D Di)) : nat :=
  List.length (filter (fun r => negb (category_present r)) df).

Definition rows_outside_fence (df : DataFrame) : nat :=
  List.length
    (filter (fun r => negb (not_outlying (lowerB (col Sales df)) (upperB (col Sales df))
                                         (Sales r))) df).

(** [x] lies in the closed interval from [lo] to [hi]. *)
Definition within (lo hi x : float) : bool := (lo <=? x) && (x <=? hi).

(** No row equals an earlier one. *)
Fixpoint no_duplicate_rows (df : RawFrame) : Prop :=
  match df with
  | [] => True
  | r :: df' => Forall (fun r' => raw_row_same r' r = false) df' /\ no_duplicate_rows df'
  end.

(** The cleaned frame as a second run of the cleaner reads it: every number
    and time stamp is read back as it was written, every text cell too. *)
Definition as_read_back (df : DataFrame) : RawFrame :=
  map (fun r => mkRow (Num (Age r)) (Gender r) (Num (Sales r)) (Num (Profit r))
                      (match Date r with
                       | Some t => DateText t
                       | None => MissingDate
                       end)
                      (Category r) (Num (Discount r))) df.

(** The tie-break rule as the specification words it: among the most
    frequent valid dates, the one met first in the column. *)
Definition first_encountered_mode (s : list (option Z)) : option Z :=
  let vals := valid_dates s in
  find (fun t => Nat.eqb (occurrences t vals) (max_occurrences vals)) vals.

(** [l] is [l'] with some elements taken out, the others in their order. *)
Inductive subsequence {A : Type} : list A -> list A -> Prop :=
| subsequence_nil : subsequence [] []
| subsequence_skip (x : A) (l l' : list A) : subsequence l l' -> subsequence l (x :: l')
| subsequence_keep (x : A) (l l' : list A) : subsequence l l' -> subsequence (x :: l) (x :: l').

(** The quotient is an infinity or [nan]. *)
Definition infinite_or_undefined (x : float) : bool := negb (is_finite x).

(** ** Sample frames *)

Definition sample_row (age sales : float) (date : Z) : raw_row :=
  mkRow (Num age) (Some "F"%string) (Num sales) (Num 20) (DateText date)
        (Some "A"%string) (Num 0).

(** Six distinct rows; Sales is 1, 2, 3, 4, 10, 100. *)
Definition cascade_csv : RawFrame :=
  [ sample_row 21 1 5; sample_row 22 2 5; sample_row 23 3 5;
    sample_row 24 4 5; sample_row 25 10 5; sample_row 26 100 5 ].

(** Five distinct rows; Sales is 1, 2, 3, 4, 100. *)
Definition stable_csv : RawFrame :=
  [ sample_row 21 1 5; sample_row 22 2 5; sample_row 23 3 5;
    sample_row 24 4 5; sample_row 26 100 5 ].

(** One row whose Sales cell is text. *)
Definition text_sales_csv : RawFrame :=
  [ mkRow (Num 30) (Some "F"%string) (NonNumeric "abc") (Num 20) (DateText 5)
          (Some "A"%string) (Num 0) ].

(** One row whose Age cell is text. *)
Definition text_age_csv : RawFrame :=
  [ mkRow (NonNumeric "thirty") (Some "F"%string) (Num 100) (Num 20) (DateText 5)
          (Some "A"%string) (Num 0) ].

(** Two dates that occur once each, the later one first, and a row without
    a date. *)
Definition tie_csv : RawFrame :=
  [ mkRow (Num 30) None (Num 100) (Num 20) (DateText 2) (Some "A"%string) (Num 0);
    mkRow (Num 31) None (Num 100) (Num 20) (DateText 1) (Some "A"%string) (Num 0);
    mkRow (Num 32) None (Num 100) (Num 20) MissingDate (Some "A"%string) (Num 0) ].

(** One row without a Category. *)
Definition no_category_csv : RawFrame :=
  [ mkRow (Num 30) (Some "F"%string) (Num 100) (Num 20) (DateText 5) None (Num 0) ].

(** Two rows that differ in the text of their Sales cell only, and a third
    row whose Sales is a number. *)
Definition two_texts_csv : RawFrame :=
  [ mkRow (Num 30) (Some "F"%string) (NonNumeric "abc") (Num 20) (DateText 5)
          (Some "A"%string) (Num 0);
    mkRow (Num 30) (Some "F"%string) (NonNumeric "xyz") (Num 20) (DateText 5)
          (Some "A"%string) (Num 0);
    mkRow (Num 31) (Some "F"%string) (Num 100) (Num 20) (DateText 5)
          (Some "A"%string) (Num 0) ].

(** Three rows that read alike and are spelled differently: the Sales texts
    "100" and "100.0", and a date that is not in the standard form. *)
Definition read_alike_csv : RawFrame :=
  [ mkRow (Num 30) (Some "F"%string) (NumericText "100" 100) (Num 20) (DateText 5)
          (Some "A"%string) (Num 0);
    mkRow (Num 30) (Some "F"%string) (NumericText "100.0" 100) (Num 20) (DateText 5)
          (Some "A"%string) (Num 0);
    mkRow (Num 30) (Some "F"%string) (NumericText "100" 100) (Num 20)
          (DateAs "2024-1-5" 5) (Some "A"%string) (Num 0) ].

(** The specification's scenario: a row given twice, Discount left empty. *)
Definition scenario_csv : RawFrame :=
  [ mkRow (Num 30) (Some "F"%string) (Num 100) (Num 20) (DateText 5)
          (Some "A"%string) (Num nan);
    mkRow (Num 30) (Some "F"%string) (Num 100) (Num 20) (DateText 5)
          (Some "A"%string) (Num nan) ].

(** * Properties *)

(** ** Lists and frames *)

Lemma assign_map {X R C R'} (set : R -> C -> R') (g : X -> R) (h : X -> C) (l : list X) :
  assign set (map g l) (map h l) = map (fun x => set (g x) (h x)) l.
Proof.
  unfold assign. induction l as [|x l IH]; simpl; [reflexivity|].
  now rewrite IH.
Qed.

Lemma assign_self {R C R'} (set : R -> C -> R') (h : R -> C) (l : list R) :
  assign set l (map h l) = map (fun x => set x (h x)) l.
Proof.
  rewrite <- (map_id l) at 1. apply assign_map.
Qed.

Lemma to_numeric_Ok (s : list numcell) :
  forallb numeric s = true -> to_numeric s = Ok (to_numeric_coerce s).
Proof.
  induction s as [|c s IH]; simpl; [reflexivity|].
  intros H. apply andb_prop in H as [Hc Hs].
  destruct c; try discriminate; simpl; now rewrite (IH Hs).
Qed.

Lemma to_numeric_Raise (s : list numcell) :
  forallb numeric s = false -> to_numeric s = Raise ValueError.
Proof.
  induction s as [|c s IH]; simpl; [discriminate|].
  destruct c; simpl; try reflexivity; intros H; now rewrite (IH H).
Qed.

(** ** The column steps, row by row *)

(** Every step assigns a column computed from the frame itself: such a
    step is a map over the rows. *)
Ltac by_rows :=
  unfold fill_median, to_numeric_coerce, to_datetime_coerce, fillna, col;
  repeat (rewrite ?map_map, ?assign_self, ?assign_map; simpl);
  try reflexivity.

Lemma clean_Age_Ok {S P D Di} (df : list (row numcell S P D Di)) :
  forallb numeric (col Age df) = true ->
  clean_Age df =
  Ok (map (fun r => set_Age r (fillna_value (fill_median (col Age df)) (coerce_cell (Age r)))) df).
Proof.
  intros H. unfold clean_Age. rewrite (to_numeric_Ok _ H). simpl. by_rows.
Qed.

Lemma clean_Age_Raise {S P D Di} (df : list (row numcell S P D Di)) :
  forallb numeric (col Age df) = false -> clean_Age df = Raise ValueError.
Proof.
  intros H. unfold clean_Age. now rewrite (to_numeric_Raise _ H).
Qed.

Lemma clean_Gender_rows {A S P D Di} (df : list (row A S P D Di)) :
  clean_Gender df =
  map (fun r => set_Gender r (replace_text "" "Other" (fillna_text "Other" (Gender r)))) df.
Proof. unfold clean_Gender. by_rows. Qed.

Lemma clean_Sales_rows {A P D Di} (df : list (row A numcell P D Di)) :
  clean_Sales df =
  map (fun r => set_Sales r (fillna_value (fill_median (col Sales df)) (coerce_cell (Sales r)))) df.
Proof. unfold clean_Sales. by_rows. Qed.

Lemma clean_Profit_rows {A S D Di} (df : list (row A S numcell D Di)) :
  clean_Profit df =
  map (fun r => set_Profit r (fillna_value (fill_median (col Profit df)) (coerce_cell (Profit r)))) df.
Proof. unfold clean_Profit. by_rows. Qed.

Lemma clean_Discount_rows {A S P D} (df : list (row A S P D numcell)) :
  clean_Discount df =
  map (fun r => set_Discount r (fillna_value 0 (coerce_cell (Discount r)))) df.
Proof. unfold clean_Discount. by_rows. Qed.

Lemma clean_Date_rows {A S P Di} (df : list (row A S P datecell Di)) :
  clean_Date df =
  (modal_date <- item0 (mode (to_datetime_coerce (col Date df))) ;;
   Ok (map (fun r => set_Date r (fillna_date modal_date (coerce_date (Date r)))) df)).
Proof.
  unfold clean_Date. by_rows.
  destruct (item0 _) as [m|e]; simpl; [|reflexivity]. by_rows.
Qed.

(** The medians and the modal date are those of the frame without its
    duplicate rows; the rows that stay are those with a Category. *)
Lemma clean_columns_rows (csv : RawFrame) :
  clean_columns csv =
  if forallb numeric (col Age (drop_duplicates csv)) then
    modal_date <- item0 (mode (to_datetime_coerce (col Date (drop_duplicates csv)))) ;;
    Ok (cleaned_rows csv modal_date)
  else Raise ValueError.
Proof.
  unfold clean_columns.
  destruct (forallb numeric (col Age (drop_duplicates csv))) eqn:HAge.
  - rewrite (clean_Age_Ok _ HAge). simpl.
    rewrite clean_Gender_rows, clean_Sales_rows, clean_Profit_rows, clean_Date_rows.
    unfold col, to_datetime_coerce. rewrite !map_map. simpl.
    destruct (item0 _) as [modal_date|e]; simpl; [|reflexivity].
    rewrite clean_Discount_rows. unfold dropna_Category.
    unfold cleaned_rows. rewrite !map_map, filter_map_swap, map_map. reflexivity.
  - now rewrite (clean_Age_Raise _ HAge).
Qed.

(** ** Floats: order and division by zero *)

Lemma SFcompare_antisym (x y : spec_float) :
  SFcompare y x = option_map CompOpp (SFcompare x y).
Proof.
  destruct x as [sx|sx| |sx mx ex], y as [sy|sy| |sy my ey]; simpl;
    try reflexivity;
    try (destruct sx; reflexivity);
    try (destruct sy; reflexivity);
    try (destruct sx, sy; reflexivity).
  destruct sx, sy; simpl; try reflexivity;
    rewrite (Z.compare_antisym ex ey);
    destruct (ex ?= ey)%Z; simpl; try reflexivity;
    rewrite (Pos.compare_cont_antisym mx my Eq); simpl;
    now rewrite ?CompOpp_involutive.
Qed.

Lemma is_nan_spec (x : float) :
  is_nan x = match Prim2SF x with S754_nan => true | _ => false end.
Proof.
  unfold is_nan. rewrite FloatAxioms.eqb_spec. unfold SFeqb.
  destruct (Prim2SF x) as [s|s| |s m e]; simpl; try reflexivity.
  - now destruct s.
  - destruct s; rewrite Z.compare_refl, Pos.compare_cont_refl; reflexivity.
Qed.

(** On numbers, "not below" is "at least". *)
Lemma ltb_false_leb (x y : float) :
  is_nan x = false -> is_nan y = false -> (x <? y) = false -> (y <=? x) = true.
Proof.
  rewrite !is_nan_spec, ltb_spec, leb_spec. unfold SFltb, SFleb.
  rewrite (SFcompare_antisym (Prim2SF x) (Prim2SF y)).
  destruct (Prim2SF x) as [sx|sx| |sx mx ex] eqn:Hx;
    destruct (Prim2SF y) as [sy|sy| |sy my ey] eqn:Hy;
    try discriminate; intros _ _;
    match goal with
    | |- context [SFcompare ?a ?b] => destruct (SFcompare a b) as [[| |]|] eqn:Hc
    end; simpl; try reflexivity; try discriminate; simpl in Hc; discriminate.
Qed.

Lemma not_outlying_within (lo hi x : float) :
  is_nan lo = false -> is_nan hi = false -> is_nan x = false ->
  not_outlying lo hi x = true -> within lo hi x = true.
Proof.
  unfold not_outlying, within. intros Hlo Hhi Hx H.
  apply negb_true_iff, orb_false_elim in H as [H1 H2].
  now rewrite (ltb_false_leb Hx Hlo H1), (ltb_false_leb Hhi Hx H2).
Qed.

(** A quotient by zero is never a finite number. *)
Lemma div_by_zero_not_finite (x y : float) :
  (y =? 0) = true -> is_finite (x / y) = false.
Proof.
  intros Hy. rewrite FloatAxioms.eqb_spec in Hy.
  assert (Hz : exists s, Prim2SF y = S754_zero s).
  { change (Prim2SF 0) with (S754_zero false) in Hy. unfold SFeqb in Hy.
    destruct (Prim2SF y) as [s|s| |s m e]; simpl in Hy;
      try discriminate; try (destruct s; discriminate).
    now exists s. }
  destruct Hz as [s Hs].
  assert (Hq : Prim2SF (x / y) = S754_nan \/ exists b, Prim2SF (x / y) = S754_infinity b).
  { rewrite div_spec, Hs. unfold SF64div, SFdiv.
    destruct (Prim2SF x) as [sx|sx| |sx mx ex]; eauto. }
  unfold is_finite, is_infinity.
  rewrite is_nan_spec, FloatAxioms.eqb_spec, abs_spec.
  destruct Hq as [Hq|[b Hq]]; rewrite Hq; simpl; [reflexivity|].
  change (Prim2SF infinity) with (S754_infinity false). reflexivity.
Qed.

(** ** Floats: sums and halves that are numbers *)

Lemma iter_pos_invariant {A} (P : A -> Prop) (f : A -> A) :
  (forall x, P x -> P (f x)) -> forall n x, P x -> P (iter_pos f n x).
Proof.
  intros Hf. induction n as [n IH|n IH|]; intros x Hx; simpl; auto.
Qed.

Lemma shr_1_nonneg (mrs : shr_record) :
  (0 <= shr_m mrs)%Z -> (0 <= shr_m (shr_1 mrs))%Z.
Proof.
  destruct mrs as [m r s]. simpl.
  destruct m as [|[p|p|]|p]; simpl; lia.
Qed.

Lemma shr_fexp_nonneg (m e : Z) (l : location) :
  (0 <= m)%Z -> (0 <= shr_m (fst (shr_fexp prec emax m e l)))%Z.
Proof.
  intros Hm. unfold shr_fexp, shr.
  assert (H0 : (0 <= shr_m (shr_record_of_loc m l))%Z)
    by (destruct l as [|[| |]]; exact Hm).
  destruct (_ - e)%Z; simpl; try assumption.
  apply (iter_pos_invariant (fun mrs => (0 <= shr_m mrs)%Z)); [apply shr_1_nonneg|assumption].
Qed.

Lemma round_nearest_even_nonneg (m : Z) (l : location) :
  (0 <= m)%Z -> (0 <= round_nearest_even m l)%Z.
Proof.
  intros Hm. destruct l as [|[| |]]; simpl; try assumption; [destruct (Z.even m)|]; lia.
Qed.

Lemma binary_round_aux_not_nan (sx : bool) (mx ex : Z) (lx : location) :
  (0 <= mx)%Z -> binary_round_aux prec emax sx mx ex lx <> S754_nan.
Proof.
  intros Hm. unfold binary_round_aux.
  pose proof (@shr_fexp_nonneg mx ex lx Hm) as H1.
  destruct (shr_fexp prec emax mx ex lx) as [mrs' e']. simpl in H1.
  pose proof (@shr_fexp_nonneg _ e' loc_Exact
                (@round_nearest_even_nonneg _ (loc_of_shr_record mrs') H1)) as H2.
  destruct (shr_fexp prec emax _ e' loc_Exact) as [mrs'' e'']. simpl in H2.
  destruct (shr_m mrs'') as [|p|p]; [discriminate| |lia].
  destruct (e'' <=? emax - prec)%Z; discriminate.
Qed.

Lemma binary_normalize_not_nan (m e : Z) (szero : bool) :
  binary_normalize prec emax m e szero <> S754_nan.
Proof.
  unfold binary_normalize, binary_round.
  destruct m as [|p|p]; [discriminate| |];
    destruct (shl_align _ _ _) as [mz ez]; apply binary_round_aux_not_nan; lia.
Qed.

Lemma is_finite_spec (x : float) :
  is_finite x = match Prim2SF x with
                | S754_zero _ | S754_finite _ _ _ => true
                | _ => false
                end.
Proof.
  unfold is_finite, is_infinity.
  rewrite is_nan_spec, FloatAxioms.eqb_spec, abs_spec.
  change (Prim2SF infinity) with (S754_infinity false).
  destruct (Prim2SF x) as [s|s| |s m e]; reflexivity.
Qed.

Lemma add_finite_number (x y : float) :
  is_finite x = true -> is_finite y = true -> is_nan (x + y) = false.
Proof.
  rewrite !is_finite_spec, is_nan_spec, add_spec. unfold SF64add, SFadd.
  destruct (Prim2SF x) as [sx|sx| |sx mx ex]; try discriminate;
    destruct (Prim2SF y) as [sy|sy| |sy my ey]; try discriminate; intros _ _;
    try reflexivity; try (destruct sx, sy; reflexivity).
  match goal with
  | |- match ?t with _ => _ end = _ =>
      pose proof (binary_normalize_not_nan
        (cond_Zopp sx (Z.pos (fst (shl_align mx ex (Z.min ex ey)))) +
         cond_Zopp sy (Z.pos (fst (shl_align my ey (Z.min ex ey)))))%Z
        (Z.min ex ey) false) as H;
      destruct t; try reflexivity; congruence
  end.
Qed.

Lemma half_number (x : float) : is_nan x = false -> is_nan (x / 2) = false.
Proof.
  rewrite !is_nan_spec, div_spec.
  change (Prim2SF 2) with (S754_finite false 4503599627370496 (-51)).
  unfold SF64div, SFdiv.
  destruct (Prim2SF x) as [sx|sx| |sx mx ex]; try discriminate; intros _; try reflexivity.
  destruct (SFdiv_core_binary prec emax (Z.pos mx) ex 4503599627370496 (-51))
    as [[mz ez] lz] eqn:E.
  assert (Hmz : (0 <= mz)%Z).
  { unfold SFdiv_core_binary in E.
    match type of E with
    | (let '(q, r) := Z.div_eucl ?a ?b in _) = _ =>
        assert (Ha : (0 <= a)%Z);
        [| pose proof (Z.div_pos a b Ha ltac:(lia)) as Hq;
           unfold Z.div in Hq; destruct (Z.div_eucl a b) as [q r];
           inversion E; subst; exact Hq ]
    end.
    destruct (_ - _ - _)%Z; try lia. apply Z.shiftl_nonneg. lia. }
  pose proof (@binary_round_aux_not_nan (xorb sx false) mz ez lz Hmz) as H.
  destruct (binary_round_aux _ _ _ _ _ _); try reflexivity; congruence.
Qed.

(** A whole number is never read as [nan]. *)
Lemma int_to_float_number (n : Z) : is_nan (int_to_float n) = false.
Proof.
  unfold int_to_float.
  pose proof (binary_normalize_not_nan n 0 false) as Hn.
  destruct (binary_normalize prec emax n 0 false) as [[|]|[|]| |s m e];
    try reflexivity; [congruence|].
  unfold SF2Prim.
  assert (H : is_nan (Z.ldexp (of_uint63 (Uint63Axioms.of_Z (Z.pos m))) e) = false).
  { rewrite is_nan_spec, Z_ldexp_spec, of_uint63_spec. unfold SFldexp.
    pose proof (binary_normalize_not_nan
                  (Uint63Axioms.to_Z (Uint63Axioms.of_Z (Z.pos m))) 0 false) as H0.
    destruct (binary_normalize prec emax _ 0 false) as [s0|s0| |s0 m0 e0];
      try reflexivity; [congruence|].
    unfold binary_round.
    destruct (shl_align _ _ _) as [mz ez].
    pose proof (@binary_round_aux_not_nan s0 (Z.pos mz) ez loc_Exact ltac:(lia)) as H1.
    destruct (binary_round_aux _ _ _ _ _ _); try reflexivity; congruence. }
  destruct s; [|exact H].
  rewrite is_nan_spec, opp_spec. rewrite is_nan_spec in H.
  destruct (Prim2SF _); try reflexivity; discriminate.
Qed.

Lemma finite_number (x : float) : is_finite x = true -> is_nan x = false.
Proof.
  unfold is_finite. intros H. apply negb_true_iff, orb_false_elim in H. tauto.
Qed.

Lemma eqb_true_numbers (x y : float) :
  (x =? y) = true -> is_nan x = false /\ is_nan y = false.
Proof.
  rewrite !is_nan_spec, FloatAxioms.eqb_spec. unfold SFeqb.
  destruct (Prim2SF x) as [sx|sx| |sx mx ex], (Prim2SF y) as [sy|sy| |sy my ey];
    simpl; intros H; try discriminate; split; reflexivity.
Qed.

Lemma float_same_nan (x y : float) :
  float_same x y = true -> is_nan y = is_nan x.
Proof.
  unfold float_same. intros H. apply orb_prop in H as [H|H].
  - apply eqb_true_numbers in H as [-> ->]. reflexivity.
  - apply andb_prop in H as [-> ->]. reflexivity.
Qed.

(** ** The median of a column *)

Lemma insert_sorted_In (x y : float) (s : list float) :
  In y (insert_sorted x s) <-> y = x \/ In y s.
Proof.
  induction s as [|z s IH]; simpl; [intuition|].
  destruct (x <=? z); simpl; rewrite ?IH; intuition.
Qed.

Lemma sort_In (y : float) (s : list float) : In y (sort s) <-> In y s.
Proof.
  induction s as [|x s IH]; simpl; [tauto|].
  rewrite insert_sorted_In, IH. intuition.
Qed.

Lemma insert_sorted_length (x : float) (s : list float) :
  List.length (insert_sorted x s) = S (List.length s).
Proof.
  induction s as [|z s IH]; simpl; [reflexivity|].
  destruct (x <=? z); simpl; [reflexivity|]. now rewrite IH.
Qed.

Lemma sort_length (s : list float) : List.length (sort s) = List.length s.
Proof.
  induction s as [|x s IH]; simpl; [reflexivity|].
  now rewrite insert_sorted_length, IH.
Qed.

(** The median of finite numbers, at least one, is a number. *)
Lemma median_number (s : list float) :
  s <> [] -> forallb is_finite s = true -> is_nan (median s) = false.
Proof.
  intros Hne Hfin. unfold median.
  assert (Hlen : List.length (sort s) <> 0%nat).
  { rewrite sort_length. destruct s; [congruence|discriminate]. }
  assert (Hnth : forall i, (i < List.length (sort s))%nat ->
                           is_finite (nth i (sort s) nan) = true).
  { intros i Hi. rewrite forallb_forall in Hfin. apply Hfin, sort_In, nth_In, Hi. }
  destruct (List.length (sort s)) as [|k] eqn:E; [congruence|].
  assert (Hhalf : (S k / 2 < S k)%nat) by (apply Nat.div_lt; lia).
  destruct (Nat.odd (S k)).
  - apply finite_number, Hnth, Hhalf.
  - apply half_number, add_finite_number; apply Hnth; lia.
Qed.

(** A cell holds a number when what is read from it is not [nan]. *)
Lemma holds_number_reading (c : numcell) :
  holds_number c = negb (is_nan (coerce_cell c)).
Proof. destruct c; reflexivity. Qed.

Lemma finite_if_number_reading (c : numcell) :
  finite_if_number c = is_nan (coerce_cell c) || is_finite (coerce_cell c).
Proof. destruct c; reflexivity. Qed.

Lemma fill_median_number (s : list numcell) :
  has_median s = true -> is_nan (fill_median s) = false.
Proof.
  unfold has_median, fill_median, to_numeric_coerce, dropna.
  intros H. apply andb_prop in H as [Hex Hall]. apply median_number.
  - apply existsb_exists in Hex as (c & Hc & Hn).
    rewrite holds_number_reading in Hn.
    assert (Hin : In (coerce_cell c)
                     (filter (fun x => negb (is_nan x)) (map coerce_cell s))).
    { apply filter_In. split; [|assumption]. apply in_map_iff. now exists c. }
    intros E. rewrite E in Hin. destruct Hin.
  - apply forallb_forall. intros x Hx. apply filter_In in Hx as [Hx Hn].
    apply in_map_iff in Hx as (c & <- & Hc).
    rewrite forallb_forall in Hall. specialize (Hall c Hc).
    rewrite finite_if_number_reading in Hall.
    apply negb_true_iff in Hn. now rewrite Hn in Hall.
Qed.

Lemma dropna_holds_number (s : list numcell) :
  dropna (to_numeric_coerce (filter holds_number s)) = dropna (to_numeric_coerce s).
Proof.
  unfold dropna, to_numeric_coerce.
  induction s as [|c s IH]; simpl; [reflexivity|].
  rewrite holds_number_reading.
  destruct (is_nan (coerce_cell c)) eqn:Hx; simpl; [assumption|].
  rewrite Hx. simpl. now rewrite IH.
Qed.

(** The cells that hold no number, text or missing, do not weigh on the
    median. *)
Lemma fill_median_filter (s : list numcell) :
  fill_median (filter holds_number s) = fill_median s.
Proof. unfold fill_median. now rewrite dropna_holds_number. Qed.

Lemma coerce_text_as_missing (c : numcell) :
  coerce_cell (text_as_missing c) = coerce_cell c.
Proof. destruct c; reflexivity. Qed.

Lemma fillna_value_reading (v : float) (c : numcell) :
  fillna_value v (coerce_cell c) = if holds_number c then coerce_cell c else v.
Proof.
  rewrite holds_number_reading. unfold fillna_value.
  now destruct (is_nan (coerce_cell c)).
Qed.

(** ** drop_duplicates keeps a copy of every row *)

Lemma drop_duplicates_from_length (seen : list raw_row) (df : RawFrame) :
  List.length (drop_duplicates_from seen df) <= List.length df.
Proof.
  revert seen. induction df as [|r df IH]; intros seen; simpl; [lia|].
  destruct (existsb (raw_row_same r) seen); simpl.
  - specialize (IH seen). lia.
  - specialize (IH (r :: seen)). lia.
Qed.

Lemma drop_duplicates_from_distinct (seen : list raw_row) (df : RawFrame) :
  no_duplicate_rows df ->
  Forall (fun r => existsb (raw_row_same r) seen = false) df ->
  drop_duplicates_from seen df = df.
Proof.
  revert seen. induction df as [|r df IH]; intros seen Hd Hs; simpl; [reflexivity|].
  destruct Hd as [Hr Hd]. inversion Hs as [|? ? Hr' Hs']; subst.
  rewrite Hr'. f_equal. apply IH; [assumption|].
  rewrite Forall_forall in *. intros r' Hin. simpl.
  now rewrite (Hr r' Hin), (Hs' r' Hin).
Qed.

Lemma drop_duplicates_distinct (df : RawFrame) :
  no_duplicate_rows df -> drop_duplicates df = df.
Proof.
  intros H. apply drop_duplicates_from_distinct; [assumption|].
  apply Forall_forall. reflexivity.
Qed.

Lemma In_drop_duplicates_from (seen : list raw_row) (df : RawFrame) (r : raw_row) :
  In r (drop_duplicates_from seen df) -> In r df.
Proof.
  revert seen. induction df as [|r0 df IH]; intros seen; simpl; [tauto|].
  destruct (existsb (raw_row_same r0) seen); simpl; intros H.
  - right. eapply IH, H.
  - destruct H as [H|H]; [now left|right; eapply IH, H].
Qed.

Lemma drop_duplicates_from_covers (seen : list raw_row) (df : RawFrame) (r : raw_row) :
  In r df ->
  exists s, (In s seen \/ In s (drop_duplicates_from seen df)) /\
            (s = r \/ raw_row_same r s = true).
Proof.
  revert seen. induction df as [|r0 df IH]; intros seen; simpl; [tauto|].
  intros [->|Hin].
  - destruct (existsb (raw_row_same r) seen) eqn:E.
    + apply existsb_exists in E as (s & Hs & Hsame). exists s. tauto.
    + exists r. simpl. tauto.
  - destruct (existsb (raw_row_same r0) seen) eqn:E.
    + apply IH, Hin.
    + destruct (IH (r0 :: seen) Hin) as (s & Hs & Hsame).
      exists s. simpl in *. tauto.
Qed.

Lemma raw_row_same_cells (r s : raw_row) :
  raw_row_same r s = true ->
  numeric (Age s) = numeric (Age r) /\ valid_date (Date s) = valid_date (Date r).
Proof.
  unfold raw_row_same. intros H.
  repeat (apply andb_prop in H as [H ?]).
  pose proof (H : numcell_same (Age r) (Age s) = true) as HAge.
  assert (HDate : datecell_same (Date r) (Date s) = true) by assumption.
  revert HAge HDate. unfold valid_date.
  destruct (Age r), (Age s), (Date r), (Date s); simpl; intros; split;
    congruence.
Qed.

Lemma drop_duplicates_keeps (p : raw_row -> bool) (csv : RawFrame) :
  (forall r s, raw_row_same r s = true -> p s = p r) ->
  existsb p (drop_duplicates csv) = existsb p csv.
Proof.
  intros Hp. apply eq_true_iff_eq. rewrite !existsb_exists. split.
  - intros (r & Hr & Hpr). exists r. split; [|assumption].
    eapply In_drop_duplicates_from, Hr.
  - intros (r & Hr & Hpr).
    destruct (drop_duplicates_from_covers [] csv r Hr) as (s & [[]|Hs] & Hsame).
    exists s. split; [assumption|].
    destruct Hsame as [->|Hsame]; [assumption|]. now rewrite (Hp r s Hsame).
Qed.

Lemma existsb_map {A B} (f : A -> B) (p : B -> bool) (l : list A) :
  existsb p (map f l) = existsb (fun x => p (f x)) l.
Proof. induction l as [|x l IH]; simpl; [reflexivity|]. now rewrite IH. Qed.

Lemma forallb_map {A B} (f : A -> B) (p : B -> bool) (l : list A) :
  forallb p (map f l) = forallb (fun x => p (f x)) l.
Proof. induction l as [|x l IH]; simpl; [reflexivity|]. now rewrite IH. Qed.

Lemma forallb_negb_existsb {A} (p : A -> bool) (l : list A) :
  forallb p l = negb (existsb (fun x => negb (p x)) l).
Proof.
  induction l as [|x l IH]; simpl; [reflexivity|].
  rewrite IH. now destruct (p x).
Qed.

Lemma Age_numeric_after_drop_duplicates (csv : RawFrame) :
  forallb numeric (col Age (drop_duplicates csv)) = forallb numeric (col Age csv).
Proof.
  unfold col. rewrite !forallb_map, !forallb_negb_existsb. f_equal.
  apply (drop_duplicates_keeps (fun r => negb (numeric (Age r)))).
  intros r s H. now destruct (raw_row_same_cells r s H) as [-> _].
Qed.

Lemma Date_valid_after_drop_duplicates (csv : RawFrame) :
  existsb valid_date (col Date (drop_duplicates csv)) = existsb valid_date (col Date csv).
Proof.
  unfold col. rewrite !existsb_map.
  apply (drop_duplicates_keeps (fun r => valid_date (Date r))).
  intros r s H. now destruct (raw_row_same_cells r s H) as [_ ->].
Qed.

Lemma numcell_same_number (c d : numcell) :
  numcell_same c d = true -> holds_number d = holds_number c.
Proof.
  destruct c as [x|n|s x|s], d as [y|m|s' y|s']; simpl; try discriminate;
    intros H.
  - now rewrite (float_same_nan _ _ H).
  - apply Z.eqb_eq in H. now subst.
  - apply andb_prop in H as [_ H]. now rewrite (float_same_nan _ _ H).
  - reflexivity.
Qed.

Lemma raw_row_same_numbers (r s : raw_row) :
  raw_row_same r s = true ->
  holds_number (Age s) = holds_number (Age r) /\
  holds_number (Sales s) = holds_number (Sales r) /\
  holds_number (Profit s) = holds_number (Profit r).
Proof.
  unfold raw_row_same. intros H.
  repeat (apply andb_prop in H as [H ?]).
  repeat split; now apply numcell_same_number.
Qed.

(** A column that has a median still has one once the duplicate rows are
    gone. *)
Lemma has_median_after_drop_duplicates (f : raw_row -> numcell) (csv : RawFrame) :
  (forall r s, raw_row_same r s = true -> holds_number (f s) = holds_number (f r)) ->
  has_median (col f csv) = true ->
  has_median (col f (drop_duplicates csv)) = true.
Proof.
  unfold has_median, col. intros Hf H. apply andb_prop in H as [Hex Hall].
  rewrite existsb_map in *. rewrite forallb_map in *.
  rewrite (drop_duplicates_keeps (fun r => holds_number (f r)) csv Hf), Hex. simpl.
  apply forallb_forall. intros r Hr. rewrite forallb_forall in Hall.
  eapply Hall, In_drop_duplicates_from, Hr.
Qed.

(** ** The mode of the dates *)

Lemma insert_date_In (t x : Z) (l : list Z) :
  In x (insert_date t l) <-> x = t \/ In x l.
Proof.
  induction l as [|u l IH]; simpl; [intuition|].
  destruct (t <=? u)%Z; simpl; rewrite ?IH; intuition.
Qed.

Lemma sort_dates_In (x : Z) (l : list Z) : In x (sort_dates l) <-> In x l.
Proof.
  induction l as [|t l IH]; simpl; [tauto|].
  rewrite insert_date_In, IH. intuition.
Qed.

Lemma sort_dates_least (l : list Z) (m : Z) :
  item0 (sort_dates l) = Ok m -> forall x, In x l -> (m <= x)%Z.
Proof.
  revert m. induction l as [|t l IH]; intros m; simpl; [discriminate|].
  intros Hm x Hx.
  destruct (sort_dates l) as [|u rest] eqn:E; simpl in Hm.
  - inversion Hm; subst. destruct Hx as [->|Hx]; [lia|].
    apply sort_dates_In in Hx. rewrite E in Hx. destruct Hx.
  - specialize (IH u eq_refl).
    destruct (t <=? u)%Z eqn:Htu; simpl in Hm; inversion Hm; subst.
    + apply Z.leb_le in Htu. destruct Hx as [->|Hx]; [lia|]. specialize (IH x Hx). lia.
    + apply Z.leb_gt in Htu. destruct Hx as [->|Hx]; [lia|]. now apply IH.
Qed.

Lemma max_list_attained (ns : list nat) :
  ns <> [] -> In (fold_right Nat.max 0%nat ns) ns.
Proof.
  induction ns as [|n ns IH]; [congruence|]. intros _. simpl.
  destruct ns as [|n' ns'].
  - left. simpl. lia.
  - destruct (Nat.max_dec n (fold_right Nat.max 0%nat (n' :: ns'))) as [E|E];
      rewrite E; [now left|right]. apply IH. discriminate.
Qed.

Lemma max_list_bound (ns : list nat) (n : nat) :
  In n ns -> n <= fold_right Nat.max 0%nat ns.
Proof.
  induction ns as [|k ns IH]; simpl; [tauto|].
  intros [->|H]; [lia|]. specialize (IH H). lia.
Qed.

Lemma valid_dates_In (t : Z) (s : list (option Z)) :
  In t (valid_dates s) <-> In (Some t) s.
Proof.
  induction s as [|[u|] s IH]; simpl; [tauto| |].
  - rewrite IH. split; intros [H|H]; auto; left; congruence.
  - rewrite IH. split; [auto|]. intros [H|H]; [discriminate|assumption].
Qed.

(** [mode()[0]] is a valid date of the column, no valid date occurs more
    often, and it is the least of those that occur as often. *)
Lemma mode_item0 (s : list (option Z)) (m : Z) :
  item0 (mode s) = Ok m ->
  In m (valid_dates s) /\
  (forall t, In t (valid_dates s) ->
             occurrences t (valid_dates s) <= occurrences m (valid_dates s)) /\
  (forall t, In t (valid_dates s) ->
             occurrences t (valid_dates s) = occurrences m (valid_dates s) ->
             (m <= t)%Z).
Proof.
  unfold mode. intros H.
  set (vals := valid_dates s) in *.
  set (best := max_occurrences vals) in *.
  assert (Hm : In m (sort_dates (nodup Z.eq_dec
                (filter (fun t => Nat.eqb (occurrences t vals) best) vals)))).
  { destruct (sort_dates _) as [|u rest]; simpl in H; inversion H. now left. }
  apply sort_dates_In, nodup_In, filter_In in Hm as [Hin Hbest].
  apply Nat.eqb_eq in Hbest.
  split; [assumption|]. split.
  - intros t Ht. rewrite Hbest. unfold best, max_occurrences.
    apply max_list_bound. apply in_map_iff. now exists t.
  - intros t Ht Heq. apply (sort_dates_least _ H).
    apply nodup_In, filter_In. split; [assumption|].
    apply Nat.eqb_eq. congruence.
Qed.

Lemma mode_exists (s : list (option Z)) :
  existsb (fun c => match c with Some _ => true | None => false end) s = true ->
  exists m, item0 (mode s) = Ok m.
Proof.
  intros H. apply existsb_exists in H as ([t|] & Hin & Ht); [|discriminate].
  apply valid_dates_In in Hin.
  assert (Hne : map (fun u => occurrences u (valid_dates s)) (valid_dates s) <> []).
  { destruct (valid_dates s); [destruct Hin|discriminate]. }
  apply max_list_attained in Hne. apply in_map_iff in Hne as (u & Hu & Hin').
  assert (Hmode : In u (mode s)).
  { unfold mode. apply sort_dates_In, nodup_In, filter_In. split; [assumption|].
    apply Nat.eqb_eq. exact Hu. }
  destruct (mode s) as [|m rest]; [destruct Hmode|]. now exists m.
Qed.

Lemma mode_empty (s : list (option Z)) :
  existsb (fun c => match c with Some _ => true | None => false end) s = false ->
  item0 (mode s) = Raise KeyError.
Proof.
  intros H. destruct (item0 (mode s)) as [m|e] eqn:E.
  - apply mode_item0 in E as (Hin & _). apply valid_dates_In in Hin.
    assert (existsb (fun c => match c with Some _ => true | None => false end) s = true)
      by (apply existsb_exists; now exists (Some m)).
    congruence.
  - destruct (mode s); simpl in E; now inversion E.
Qed.

(** ** The cleaner, when it returns *)

Lemma readCsvAndCleanData_Ok (csv : RawFrame) (out : DataFrame) :
  readCsvAndCleanData csv = Ok out ->
  exists modal_date,
    forallb numeric (col Age (drop_duplicates csv)) = true /\
    item0 (mode (to_datetime_coerce (col Date (drop_duplicates csv)))) = Ok modal_date /\
    clean_columns csv = Ok (cleaned_rows csv modal_date) /\
    out = remove_outliers (cleaned_rows csv modal_date).
Proof.
  unfold readCsvAndCleanData. intros H.
  pose proof (clean_columns_rows csv) as Hrows.
  destruct (forallb numeric (col Age (drop_duplicates csv))); cycle 1.
  { rewrite Hrows in H. discriminate. }
  destruct (item0 (mode (to_datetime_coerce (col Date (drop_duplicates csv)))))
    as [modal_date|e]; simpl in Hrows; rewrite Hrows in H; simpl in H; [|discriminate].
  exists modal_date. repeat split; try assumption. now inversion H.
Qed.

Lemma In_remove_outliers (df : DataFrame) (r : clean_row) :
  In r (remove_outliers df) ->
  In r df /\
  not_outlying (lowerB (col Sales df)) (upperB (col Sales df)) (Sales r) = true.
Proof. unfold remove_outliers. intros H. now apply filter_In in H. Qed.

Lemma fillna_value_number (v x : float) :
  is_nan v = false -> is_nan (fillna_value v x) = false.
Proof. unfold fillna_value. intros Hv. now destruct (is_nan x) eqn:Hx. Qed.

Lemma finish_row_filled (a s p : float) (m : Z) (r : raw_row) :
  category_present r = true ->
  let r' := finish_row a s p m r in
  Date r' <> None /\ is_nan (Discount r') = false /\ Category r' <> None /\
  Gender r' <> None /\ Gender r' <> Some ""%string /\
  (is_nan a = false -> is_nan (Age r') = false) /\
  (is_nan s = false -> is_nan (Sales r') = false) /\
  (is_nan p = false -> is_nan (Profit r') = false).
Proof.
  intros Hc. unfold category_present in Hc. simpl.
  repeat split; try (apply fillna_value_number).
  - now destruct (coerce_date (Date r)).
  - reflexivity.
  - now destruct (Category r).
  - destruct (Gender r) as [g|]; simpl; [destruct (g =? "")%string|]; discriminate.
  - destruct (Gender r) as [g|]; simpl; [|discriminate].
    destruct (g =? "")%string eqn:Hg; [discriminate|].
    apply String.eqb_neq in Hg. congruence.
Qed.

(** ** The wrangler, row by row *)

Lemma combine_map {X A B} (f : X -> A) (g : X -> B) (l : list X) :
  combine (map f l) (map g l) = map (fun x => (f x, g x)) l.
Proof. induction l as [|x l IH]; simpl; [reflexivity|]. now rewrite IH. Qed.

Lemma combine_self {X B} (g : X -> B) (l : list X) :
  combine l (map g l) = map (fun x => (x, g x)) l.
Proof. rewrite <- (map_id l) at 1. apply combine_map. Qed.

Lemma performDataWrangling_rows (cleaned_df : DataFrame) :
  fst (performDataWrangling cleaned_df) =
  map (fun r => mkWrangled r (Profit r / Sales r) (mature_status (Age r))) cleaned_df.
Proof.
  unfold performDataWrangling, col. simpl.
  rewrite combine_map, !map_map, combine_self, combine_map, map_map. reflexivity.
Qed.

(** ** C1: missing values after cleaning *)

(** C1, amended.  In the table that [readCsvAndCleanData] returns, Date and
    Discount hold no missing value and every row has a Category; Age, Sales
    and Profit hold no missing value whenever the median that fills the
    column is a number, which it is when the column holds at least one number
    and no infinite one. *)
Theorem cleaned_table_missing_values (csv : RawFrame) (out : DataFrame) :
  readCsvAndCleanData csv = Ok out ->
  Forall (fun r =>
    Date r <> None /\ is_nan (Discount r) = false /\ Category r <> None /\
    (is_nan (fill_median (col Age (drop_duplicates csv))) = false ->
     is_nan (Age r) = false) /\
    (is_nan (fill_median (col Sales (drop_duplicates csv))) = false ->
     is_nan (Sales r) = false) /\
    (is_nan (fill_median (col Profit (drop_duplicates csv))) = false ->
     is_nan (Profit r) = false) /\
    (has_median (col Age csv) = true -> is_nan (Age r) = false) /\
    (has_median (col Sales csv) = true -> is_nan (Sales r) = false) /\
    (has_median (col Profit csv) = true -> is_nan (Profit r) = false)) out.
Proof.
  intros H. apply readCsvAndCleanData_Ok in H as (m & _ & _ & _ & ->).
  apply Forall_forall. intros r Hr.
  apply In_remove_outliers in Hr as [Hr _].
  unfold cleaned_rows in Hr. apply in_map_iff in Hr as (r0 & <- & Hr0).
  apply filter_In in Hr0 as [_ Hc].
  pose proof (finish_row_filled
                (fill_median (col Age (drop_duplicates csv)))
                (fill_median (col Sales (drop_duplicates csv)))
                (fill_median (col Profit (drop_duplicates csv))) m r0 Hc)
    as (F1 & F2 & F3 & _ & _ & FA & FS & FP).
  repeat split; try assumption.
  - intros Hm. apply FA, fill_median_number, has_median_after_drop_duplicates;
      [intros x y E; apply (raw_row_same_numbers x y E)|assumption].
  - intros Hm. apply FS, fill_median_number, has_median_after_drop_duplicates;
      [intros x y E; apply (raw_row_same_numbers x y E)|assumption].
  - intros Hm. apply FP, fill_median_number, has_median_after_drop_duplicates;
      [intros x y E; apply (raw_row_same_numbers x y E)|assumption].
Qed.

Lemma cleaned_table_missing_values_witness :
  exists out, readCsvAndCleanData scenario_csv = Ok out /\ Forall free_of_missing out.
Proof.
  exists [mkRow 30 (Some "F"%string) 100 20 (Some 5%Z) (Some "A"%string) 0].
  assert (H : readCsvAndCleanData scenario_csv =
              Ok [mkRow 30 (Some "F"%string) 100 20 (Some 5%Z) (Some "A"%string) 0])
    by (vm_compute; reflexivity).
  split; [exact H|].
  pose proof (cleaned_table_missing_values scenario_csv H) as F.
  eapply Forall_impl; [|exact F]. unfold free_of_missing.
  intros r (HD & HDi & HC & _ & _ & _ & HA & HS & HP).
  repeat split; try assumption; [apply HA|apply HS|apply HP]; vm_compute; reflexivity.
Defined.

(** C1 as stated fails: a Sales column without any number has no median,
    and the returned table keeps its missing Sales values. *)
Lemma text_sales_stay_missing :
  exists out, readCsvAndCleanData text_sales_csv = Ok out /\ ~ Forall free_of_missing out.
Proof.
  exists [mkRow 30 (Some "F"%string) nan 20 (Some 5%Z) (Some "A"%string) 0].
  split; [vm_compute; reflexivity|].
  intros H. inversion H as [|r l Hr _]. unfold free_of_missing in Hr. simpl in Hr.
  destruct Hr as (_ & Hs & _). vm_compute in Hs. discriminate.
Qed.

(** ** C2: the outlier fence *)

(** C2, amended.  No Sales value of the returned table is below
    [Q1 - 1.5*IQR] or above [Q3 + 1.5*IQR], the quartiles being those of the
    Sales column as it stands when the fence is applied, before any row is
    removed by it; when the value and the two bounds are numbers, the value
    lies within the closed interval. *)
Theorem sales_within_the_fence_applied (csv : RawFrame) (out : DataFrame) :
  readCsvAndCleanData csv = Ok out ->
  exists pre,
    clean_columns csv = Ok pre /\
    out = remove_outliers pre /\
    Forall (fun r =>
      (Sales r <? lowerB (col Sales pre)) = false /\
      (upperB (col Sales pre) <? Sales r) = false /\
      (is_nan (lowerB (col Sales pre)) = false ->
       is_nan (upperB (col Sales pre)) = false ->
       is_nan (Sales r) = false ->
       within (lowerB (col Sales pre)) (upperB (col Sales pre)) (Sales r) = true)) out.
Proof.
  intros H. apply readCsvAndCleanData_Ok in H as (m & _ & _ & Hpre & ->).
  exists (cleaned_rows csv m). repeat split; try assumption.
  apply Forall_forall. intros r Hr.
  apply In_remove_outliers in Hr as [_ Hr].
  pose proof Hr as Hb. unfold not_outlying in Hb.
  apply negb_true_iff, orb_false_elim in Hb as [H1 H2].
  repeat split; try assumption.
  intros Hlo Hhi Hx. now apply not_outlying_within.
Qed.

Lemma sales_within_the_fence_applied_witness :
  exists pre,
    clean_columns cascade_csv = Ok pre /\
    remove_outliers (cleaned_rows cascade_csv 5) = remove_outliers pre /\
    Forall (fun r =>
      (Sales r <? lowerB (col Sales pre)) = false /\
      (upperB (col Sales pre) <? Sales r) = false /\
      (is_nan (lowerB (col Sales pre)) = false ->
       is_nan (upperB (col Sales pre)) = false ->
       is_nan (Sales r) = false ->
       within (lowerB (col Sales pre)) (upperB (col Sales pre)) (Sales r) = true))
      (remove_outliers (cleaned_rows cascade_csv 5)).
Proof.
  apply (@sales_within_the_fence_applied cascade_csv).
  vm_compute. reflexivity.
Defined.

(** C2 as stated fails: once 100 is fenced out of 1, 2, 3, 4, 10, 100, the
    quartiles of what is left are 2 and 4, and 10 lies above 4 + 1.5 * 2. *)
Lemma fence_is_not_a_fixed_point :
  exists out,
    readCsvAndCleanData cascade_csv = Ok out /\
    col Sales out = [1; 2; 3; 4; 10] /\
    upperB (col Sales out) = 7 /\
    ~ Forall (fun r => within (lowerB (col Sales out)) (upperB (col Sales out)) (Sales r) = true)
             out.
Proof.
  exists (remove_outliers (cleaned_rows cascade_csv 5)).
  split; [vm_compute; reflexivity|].
  split; [vm_compute; reflexivity|].
  split; [vm_compute; reflexivity|].
  intros H. rewrite Forall_forall in H.
  specialize (H (mkRow 25 (Some "F"%string) 10 20 (Some 5%Z) (Some "A"%string) 0)).
  assert (Hin : In (mkRow 25 (Some "F"%string) 10 20 (Some 5%Z) (Some "A"%string) 0)
                   (remove_outliers (cleaned_rows cascade_csv 5))).
  { vm_compute. do 4 right. left. reflexivity. }
  specialize (H Hin). vm_compute in H. discriminate.
Qed.

(** ** C3: a second run of the cleaner *)

Lemma fillna_value_of_number (v x : float) :
  is_nan x = false -> fillna_value v x = x.
Proof. unfold fillna_value. now intros ->. Qed.

(** A row that the cleaner has already cleaned and that holds no missing
    number comes out of the column steps as it went in. *)
Lemma finish_row_as_read_back (a s p : float) (m : Z) (r : clean_row)
    (raw : raw_row) :
  raw = mkRow (Num (Age r)) (Gender r) (Num (Sales r)) (Num (Profit r))
              (match Date r with
               | Some t => DateText t
               | None => MissingDate
               end)
              (Category r) (Num (Discount r)) ->
  is_nan (Age r) = false -> is_nan (Sales r) = false -> is_nan (Profit r) = false ->
  is_nan (Discount r) = false ->
  Date r <> None -> Gender r <> None -> Gender r <> Some ""%string ->
  finish_row a s p m raw = r.
Proof.
  intros -> HA HS HP HD HDate HG HG'. unfold finish_row. simpl.
  rewrite !fillna_value_of_number by assumption.
  destruct r as [ag g sa pr d c di]; simpl in *.
  destruct d as [t|]; [|congruence].
  destruct g as [g|]; [|congruence]. simpl.
  destruct (g =? "")%string eqn:E; [|reflexivity].
  apply String.eqb_eq in E. congruence.
Qed.

Lemma filter_all {A} (p : A -> bool) (l : list A) :
  Forall (fun x => p x = true) l -> filter p l = l.
Proof.
  intros H. apply forallb_filter_id, forallb_forall.
  now rewrite Forall_forall in H.
Qed.

(** C3, amended.  Let the first run return a table that is not empty, in
    which no two rows are equal, no Age, Sales or Profit value is missing and
    no Sales value is outside the fence computed over that table itself.
    Then a second run on that table returns it unchanged. *)
Theorem second_run_returns_the_table (csv : RawFrame) (out : DataFrame) :
  readCsvAndCleanData csv = Ok out ->
  out <> [] ->
  no_duplicate_rows (as_read_back out) ->
  Forall (fun r => is_nan (Age r) = false /\ is_nan (Sales r) = false /\
                   is_nan (Profit r) = false) out ->
  Forall (fun r => not_outlying (lowerB (col Sales out)) (upperB (col Sales out))
                                (Sales r) = true) out ->
  readCsvAndCleanData (as_read_back out) = Ok out.
Proof.
  intros Hrun Hne Hdistinct Hnum Hfence.
  (* what the first run guarantees of every row *)
  assert (Hrows : Forall (fun r => Date r <> None /\ is_nan (Discount r) = false /\
                                   Category r <> None /\ Gender r <> None /\
                                   Gender r <> Some ""%string) out).
  { apply readCsvAndCleanData_Ok in Hrun as (m & _ & _ & _ & ->).
    apply Forall_forall. intros r Hr.
    apply In_remove_outliers in Hr as [Hr _].
    unfold cleaned_rows in Hr. apply in_map_iff in Hr as (r0 & <- & Hr0).
    apply filter_In in Hr0 as [_ Hc].
    pose proof (finish_row_filled
                  (fill_median (col Age (drop_duplicates csv)))
                  (fill_median (col Sales (drop_duplicates csv)))
                  (fill_median (col Profit (drop_duplicates csv))) m r0 Hc) as F.
    simpl in F. tauto. }
  clear Hrun. rewrite Forall_forall in Hrows, Hnum.
  unfold readCsvAndCleanData. rewrite clean_columns_rows.
  unfold cleaned_rows. rewrite (drop_duplicates_distinct _ Hdistinct).
  (* Age converts *)
  assert (HAge : forallb numeric (col Age (as_read_back out)) = true).
  { unfold col, as_read_back. rewrite map_map. simpl.
    rewrite forallb_map. now apply forallb_forall. }
  rewrite HAge.
  (* a modal date exists *)
  destruct (mode_exists (to_datetime_coerce (col Date (as_read_back out)))) as [m Hm].
  { unfold to_datetime_coerce, col, as_read_back. rewrite !map_map, existsb_map. simpl.
    destruct out as [|r out']; [congruence|]. simpl.
    destruct (Hrows r (or_introl eq_refl)) as (Hd & _).
    destruct (Date r); [reflexivity|congruence]. }
  rewrite Hm. simpl.
  (* no row lacks a Category, and every row is finished as it is *)
  assert (Hcat : dropna_Category (as_read_back out) = as_read_back out).
  { unfold dropna_Category. apply filter_all, Forall_forall.
    intros raw Hraw. unfold as_read_back in Hraw.
    apply in_map_iff in Hraw as (r & <- & Hr).
    destruct (Hrows r Hr) as (_ & _ & Hc & _).
    unfold category_present. simpl. destruct (Category r); [reflexivity|congruence]. }
  rewrite Hcat. unfold as_read_back at 4. rewrite map_map.
  assert (Hid : forall a s p,
            map (fun r => finish_row a s p m
                   (mkRow (Num (Age r)) (Gender r) (Num (Sales r)) (Num (Profit r))
                          (match Date r with
                           | Some t => DateText t
                           | None => MissingDate
                           end)
                          (Category r) (Num (Discount r)))) out = out).
  { intros a s p. rewrite <- (map_id out) at 2. apply map_ext_in. intros r Hr.
    destruct (Hrows r Hr) as (Hd & Hdi & _ & Hg & Hg').
    destruct (Hnum r Hr) as (Ha & Hs & Hp).
    now apply (@finish_row_as_read_back a s p m r). }
  rewrite Hid. f_equal.
  unfold remove_outliers. now apply filter_all.
Qed.

Lemma second_run_returns_the_table_witness :
  readCsvAndCleanData (as_read_back (remove_outliers (cleaned_rows stable_csv 5)))
  = Ok (remove_outliers (cleaned_rows stable_csv 5)).
Proof.
  apply (@second_run_returns_the_table stable_csv).
  - vm_compute. reflexivity.
  - vm_compute. discriminate.
  - vm_compute. repeat split; repeat constructor.
  - vm_compute. repeat constructor.
  - vm_compute. repeat constructor.
Defined.

(** C3 as stated fails: the first run returns the five rows whose Sales are
    1, 2, 3, 4, 10; the second run fences 10 out and returns four rows. *)
Lemma second_run_drops_a_row :
  exists out out2,
    readCsvAndCleanData cascade_csv = Ok out /\
    readCsvAndCleanData (as_read_back out) = Ok out2 /\
    col Sales out = [1; 2; 3; 4; 10] /\
    col Sales out2 = [1; 2; 3; 4] /\
    out2 <> out.
Proof.
  exists (remove_outliers (cleaned_rows cascade_csv 5)).
  exists (remove_outliers (remove_outliers (cleaned_rows cascade_csv 5))).
  repeat split; try (vm_compute; reflexivity).
  intros H. apply (f_equal (@List.length _)) in H. vm_compute in H. discriminate.
Qed.

(** The other conditions of the amended statement are needed as well: an
    empty table has no modal date, and rows that the first run made equal are
    duplicates for the second. *)
Lemma second_run_fails_on_an_empty_table :
  readCsvAndCleanData no_category_csv = Ok [] /\
  readCsvAndCleanData (as_read_back []) = Raise KeyError.
Proof. split; vm_compute; reflexivity. Qed.

Lemma second_run_drops_rows_made_equal :
  exists out out2,
    readCsvAndCleanData two_texts_csv = Ok out /\
    readCsvAndCleanData (as_read_back out) = Ok out2 /\
    List.length out = 3%nat /\ List.length out2 = 2%nat.
Proof.
  exists (remove_outliers (cleaned_rows two_texts_csv 5)).
  eexists. split; [vm_compute; reflexivity|].
  split; [vm_compute; reflexivity|]. split; reflexivity.
Qed.

(** ** C4: which cells make the run fail *)

Lemma readCsvAndCleanData_succeeds (csv : RawFrame) :
  forallb numeric (col Age csv) = true ->
  existsb valid_date (col Date csv) = true ->
  exists out, readCsvAndCleanData csv = Ok out.
Proof.
  intros HAge HDate. unfold readCsvAndCleanData. rewrite clean_columns_rows.
  rewrite Age_numeric_after_drop_duplicates, HAge.
  rewrite <- Date_valid_after_drop_duplicates in HDate.
  destruct (mode_exists (to_datetime_coerce (col Date (drop_duplicates csv)))) as [m Hm].
  { unfold to_datetime_coerce. rewrite existsb_map. exact HDate. }
  rewrite Hm. simpl. eauto.
Qed.

Lemma readCsvAndCleanData_Raise_Age (csv : RawFrame) :
  forallb numeric (col Age csv) = false ->
  readCsvAndCleanData csv = Raise ValueError.
Proof.
  intros HAge. unfold readCsvAndCleanData. rewrite clean_columns_rows.
  now rewrite Age_numeric_after_drop_duplicates, HAge.
Qed.

Lemma clean_Sales_cells {A P D Di} (df : list (row A numcell P D Di)) :
  col Sales (clean_Sales df)
  = map (fun c => if holds_number c then coerce_cell c
                  else fill_median (filter holds_number (col Sales df)))
        (col Sales df) /\
  clean_Sales (map (fun r => set_Sales r (text_as_missing (Sales r))) df) = clean_Sales df.
Proof.
  rewrite !clean_Sales_rows, fill_median_filter. unfold col. rewrite !map_map. simpl.
  split.
  - apply map_ext. intros r. apply fillna_value_reading.
  - unfold fill_median, to_numeric_coerce. rewrite !map_map.
    rewrite (map_ext _ _ (fun r => coerce_text_as_missing (Sales r))).
    apply map_ext. intros r. now rewrite coerce_text_as_missing.
Qed.

Lemma clean_Profit_cells {A S D Di} (df : list (row A S numcell D Di)) :
  col Profit (clean_Profit df)
  = map (fun c => if holds_number c then coerce_cell c
                  else fill_median (filter holds_number (col Profit df)))
        (col Profit df) /\
  clean_Profit (map (fun r => set_Profit r (text_as_missing (Profit r))) df)
  = clean_Profit df.
Proof.
  rewrite !clean_Profit_rows, fill_median_filter. unfold col. rewrite !map_map. simpl.
  split.
  - apply map_ext. intros r. apply fillna_value_reading.
  - unfold fill_median, to_numeric_coerce. rewrite !map_map.
    rewrite (map_ext _ _ (fun r => coerce_text_as_missing (Profit r))).
    apply map_ext. intros r. now rewrite coerce_text_as_missing.
Qed.

Lemma clean_Discount_cells {A S P D} (df : list (row A S P D numcell)) :
  col Discount (clean_Discount df)
  = map (fun c => if holds_number c then coerce_cell c else 0) (col Discount df) /\
  clean_Discount (map (fun r => set_Discount r (text_as_missing (Discount r))) df)
  = clean_Discount df.
Proof.
  rewrite !clean_Discount_rows. unfold col. rewrite !map_map. simpl.
  split.
  - apply map_ext. intros r. apply fillna_value_reading.
  - apply map_ext. intros r. now rewrite coerce_text_as_missing.
Qed.

Lemma finish_row_cells (a s p : float) (m : Z) (r0 : raw_row) :
  Sales (finish_row a s p m r0)
  = (if holds_number (Sales r0) then coerce_cell (Sales r0) else s) /\
  Profit (finish_row a s p m r0)
  = (if holds_number (Profit r0) then coerce_cell (Profit r0) else p) /\
  Discount (finish_row a s p m r0)
  = (if holds_number (Discount r0) then coerce_cell (Discount r0) else 0).
Proof. unfold finish_row. simpl. now rewrite !fillna_value_reading. Qed.

(** C4.  An Age cell that is no number makes [readCsvAndCleanData] raise, and
    the program then ends without an outcome: nothing is written.  Text in
    Sales, Profit or Discount never makes the run fail: the cleaner returns a
    table exactly when every Age cell is a number and some Date cell is a
    valid date.  Such text is converted to a missing value: each of the three
    steps gives the same frame as on the text cells taken for missing ones,
    and in that frame, as in the table the cleaner returns, a cell that holds
    no number, text or missing alike, carries the median of the column's
    numbers (Sales, Profit) or 0 (Discount), a cell that holds a number
    carries that number. *)
Theorem Age_strict_other_numbers_tolerant
    (Report : Type) (describe : list wrangled_row -> Report)
    (corr : list (float * float) -> Report)
    (pivot_table_mean_round2 groupby_mean_round2 : list wrangled_row -> Report)
    (csv : RawFrame) :
  (forallb numeric (col Age csv) = false ->
   readCsvAndCleanData csv = Raise ValueError /\
   main describe corr pivot_table_mean_round2 groupby_mean_round2 csv = Raise ValueError) /\
  ((exists out, readCsvAndCleanData csv = Ok out) <->
   forallb numeric (col Age csv) = true /\ existsb valid_date (col Date csv) = true) /\
  (forall s, to_numeric_coerce [NonNumeric s] = [nan]) /\
  (forall s v, fillna (to_numeric_coerce [NonNumeric s]) v = [v]) /\
  (forall df : list (row float numcell numcell datecell numcell),
     col Sales (clean_Sales df)
     = map (fun c => if holds_number c then coerce_cell c
                     else fill_median (filter holds_number (col Sales df)))
           (col Sales df) /\
     clean_Sales (map (fun r => set_Sales r (text_as_missing (Sales r))) df)
     = clean_Sales df) /\
  (forall df : list (row float float numcell datecell numcell),
     col Profit (clean_Profit df)
     = map (fun c => if holds_number c then coerce_cell c
                     else fill_median (filter holds_number (col Profit df)))
           (col Profit df) /\
     clean_Profit (map (fun r => set_Profit r (text_as_missing (Profit r))) df)
     = clean_Profit df) /\
  (forall df : list (row float float float (option Z) numcell),
     col Discount (clean_Discount df)
     = map (fun c => if holds_number c then coerce_cell c else 0) (col Discount df) /\
     clean_Discount (map (fun r => set_Discount r (text_as_missing (Discount r))) df)
     = clean_Discount df) /\
  (forall out, readCsvAndCleanData csv = Ok out ->
     Forall (fun r => exists r0,
       In r0 csv /\
       Category r = Category r0 /\
       Sales r = (if holds_number (Sales r0) then coerce_cell (Sales r0)
                  else fill_median (filter holds_number
                                           (col Sales (drop_duplicates csv)))) /\
       Profit r = (if holds_number (Profit r0) then coerce_cell (Profit r0)
                   else fill_median (filter holds_number
                                            (col Profit (drop_duplicates csv)))) /\
       Discount r = (if holds_number (Discount r0) then coerce_cell (Discount r0)
                     else 0)) out).
Proof.
  split; [|split; [split|]].
  - intros HAge. split; [now apply readCsvAndCleanData_Raise_Age|].
    unfold main. now rewrite readCsvAndCleanData_Raise_Age.
  - intros [out H]. split.
    + destruct (forallb numeric (col Age csv)) eqn:E; [reflexivity|].
      rewrite (readCsvAndCleanData_Raise_Age _ E) in H. discriminate.
    + apply readCsvAndCleanData_Ok in H as (m & _ & Hm & _).
      rewrite <- Date_valid_after_drop_duplicates.
      destruct (existsb valid_date (col Date (drop_duplicates csv))) eqn:E; [reflexivity|].
      rewrite mode_empty in Hm; [discriminate|].
      unfold to_datetime_coerce. rewrite existsb_map. exact E.
  - intros [HAge HDate]. now apply readCsvAndCleanData_succeeds.
  - split; [reflexivity|]. split; [reflexivity|].
    split; [intros df; apply clean_Sales_cells|].
    split; [intros df; apply clean_Profit_cells|].
    split; [intros df; apply clean_Discount_cells|].
    intros out H. apply readCsvAndCleanData_Ok in H as (m & _ & _ & _ & ->).
    apply Forall_forall. intros r Hr.
    apply In_remove_outliers in Hr as [Hr _].
    unfold cleaned_rows in Hr. apply in_map_iff in Hr as (r0 & <- & Hr0).
    apply filter_In in Hr0 as [Hr0 _]. apply In_drop_duplicates_from in Hr0.
    exists r0. split; [assumption|]. split; [reflexivity|].
    rewrite !fill_median_filter. apply finish_row_cells.
Qed.

Lemma Age_strict_other_numbers_tolerant_witness :
  (readCsvAndCleanData text_age_csv = Raise ValueError /\
   main (fun _ => tt) (fun _ => tt) (fun _ => tt) (fun _ => tt) text_age_csv
   = Raise ValueError) /\
  (exists out, readCsvAndCleanData text_sales_csv = Ok out) /\
  Forall (fun r => exists r0,
       In r0 two_texts_csv /\
       Category r = Category r0 /\
       Sales r = (if holds_number (Sales r0) then coerce_cell (Sales r0)
                  else fill_median (filter holds_number
                                           (col Sales (drop_duplicates two_texts_csv)))) /\
       Profit r = (if holds_number (Profit r0) then coerce_cell (Profit r0)
                   else fill_median (filter holds_number
                                            (col Profit (drop_duplicates two_texts_csv)))) /\
       Discount r = (if holds_number (Discount r0) then coerce_cell (Discount r0)
                     else 0))
    (remove_outliers (cleaned_rows two_texts_csv 5)).
Proof.
  split; [|split].
  - apply (Age_strict_other_numbers_tolerant
             (fun _ => tt) (fun _ => tt) (fun _ => tt) (fun _ => tt) text_age_csv).
    reflexivity.
  - apply (Age_strict_other_numbers_tolerant
             (fun _ => tt) (fun _ => tt) (fun _ => tt) (fun _ => tt) text_sales_csv).
    split; reflexivity.
  - apply (Age_strict_other_numbers_tolerant
             (fun _ => tt) (fun _ => tt) (fun _ => tt) (fun _ => tt) two_texts_csv).
    vm_compute. reflexivity.
Defined.

(** On the frame of three rows whose Sales cells are "abc", "xyz" and 100,
    the two text cells come back as 100, the median of the column's only
    number. *)
Lemma text_sales_take_the_median :
  exists out,
    readCsvAndCleanData two_texts_csv = Ok out /\ col Sales out = [100; 100; 100].
Proof.
  exists (remove_outliers (cleaned_rows two_texts_csv 5)).
  split; vm_compute; reflexivity.
Qed.

(** ** C5: the date that fills the missing dates *)

(** C5, amended.  The Date step replaces every missing or unparseable entry
    by one and the same valid date of the column, leaves the valid entries as
    they are, and that date occurs at least as often as any other; among the
    dates that occur as often, it is the earliest one. *)
Theorem modal_date_fills_missing_dates {A S P Di}
    (df : list (row A S P datecell Di)) (out : list (row A S P (option Z) Di)) :
  clean_Date df = Ok out ->
  exists modal_date,
    In modal_date (valid_dates (to_datetime_coerce (col Date df))) /\
    (forall t, In t (valid_dates (to_datetime_coerce (col Date df))) ->
       occurrences t (valid_dates (to_datetime_coerce (col Date df)))
       <= occurrences modal_date (valid_dates (to_datetime_coerce (col Date df)))) /\
    (forall t, In t (valid_dates (to_datetime_coerce (col Date df))) ->
       occurrences t (valid_dates (to_datetime_coerce (col Date df)))
       = occurrences modal_date (valid_dates (to_datetime_coerce (col Date df))) ->
       (modal_date <= t)%Z) /\
    out = map (fun r => set_Date r (match coerce_date (Date r) with
                                    | Some t => Some t
                                    | None => Some modal_date
                                    end)) df.
Proof.
  rewrite clean_Date_rows. intros H.
  destruct (item0 _) as [m|e] eqn:Hm; simpl in H; [|discriminate].
  exists m. destruct (mode_item0 _ Hm) as (H1 & H2 & H3).
  repeat split; try assumption. now inversion H.
Qed.

Lemma modal_date_fills_missing_dates_witness :
  exists modal_date,
    In modal_date (valid_dates (to_datetime_coerce (col Date tie_csv))) /\
    (forall t, In t (valid_dates (to_datetime_coerce (col Date tie_csv))) ->
       occurrences t (valid_dates (to_datetime_coerce (col Date tie_csv)))
       <= occurrences modal_date (valid_dates (to_datetime_coerce (col Date tie_csv)))) /\
    (forall t, In t (valid_dates (to_datetime_coerce (col Date tie_csv))) ->
       occurrences t (valid_dates (to_datetime_coerce (col Date tie_csv)))
       = occurrences modal_date (valid_dates (to_datetime_coerce (col Date tie_csv))) ->
       (modal_date <= t)%Z) /\
    map (fun r => set_Date r (fillna_date 1 (coerce_date (Date r)))) tie_csv
    = map (fun r => set_Date r (match coerce_date (Date r) with
                                | Some t => Some t
                                | None => Some modal_date
                                end)) tie_csv.
Proof.
  apply (@modal_date_fills_missing_dates _ _ _ _ tie_csv).
  vm_compute. reflexivity.
Defined.

(** C5 as stated fails on the tie-break: the dates 2 and 1 occur once each
    and 2 is met first, yet the missing date is filled with 1. *)
Lemma tie_is_not_broken_by_first_encounter :
  exists out,
    clean_Date tie_csv = Ok out /\
    col Date out = [Some 2%Z; Some 1%Z; Some 1%Z] /\
    first_encountered_mode (to_datetime_coerce (col Date tie_csv)) = Some 2%Z.
Proof.
  exists (map (fun r => set_Date r (fillna_date 1 (coerce_date (Date r)))) tie_csv).
  repeat split; vm_compute; reflexivity.
Qed.

(** ** C6: Profit Margin *)

(** C6.  In the table that [performDataWrangling] returns, the Profit Margin
    of every row is the float quotient of that row's Profit by its Sales; no
    guard stands before the division, so that where Sales is zero the Profit
    Margin is an infinity or [nan]. *)
Theorem Profit_Margin_is_Profit_by_Sales (cleaned_df : DataFrame) :
  map Profit_Margin (fst (performDataWrangling cleaned_df))
  = map (fun r => Profit r / Sales r) cleaned_df /\
  Forall (fun w => Profit_Margin w = Profit (original w) / Sales (original w))
         (fst (performDataWrangling cleaned_df)) /\
  Forall (fun w => (Sales (original w) =? 0) = true ->
                   infinite_or_undefined (Profit_Margin w) = true)
         (fst (performDataWrangling cleaned_df)).
Proof.
  rewrite performDataWrangling_rows, map_map. simpl.
  split; [reflexivity|].
  split; apply Forall_forall; intros w Hw;
    apply in_map_iff in Hw as (r & <- & _); simpl; [reflexivity|].
  intros Hz. unfold infinite_or_undefined.
  now rewrite (div_by_zero_not_finite (Profit r) Hz).
Qed.

Lemma Profit_Margin_is_Profit_by_Sales_witness :
  infinite_or_undefined
    (Profit_Margin (mkWrangled (mkRow 30 (Some "F"%string) 0 20 (Some 5%Z)
                                      (Some "A"%string) 0)
                               infinity "Mature")) = true.
Proof.
  pose proof (Profit_Margin_is_Profit_by_Sales
                [mkRow 30 (Some "F"%string) 0 20 (Some 5%Z) (Some "A"%string) 0])
    as (_ & _ & H).
  rewrite Forall_forall in H.
  apply (H (mkWrangled (mkRow 30 (Some "F"%string) 0 20 (Some 5%Z) (Some "A"%string) 0)
                       infinity "Mature")).
  - left. vm_compute. reflexivity.
  - reflexivity.
Defined.

(** ** C7: the row count *)

(** C7, amended.  The returned table has at most as many rows as the input.
    Three operations lower the count: dropping duplicate rows, dropping the
    rows without a Category, and dropping the rows whose Sales value is
    outside the fence; the other steps keep every row. *)
Theorem row_count_accounting (csv : RawFrame) (out : DataFrame) :
  readCsvAndCleanData csv = Ok out ->
  exists pre,
    clean_columns csv = Ok pre /\
    List.length out <= List.length csv /\
    List.length (drop_duplicates csv) <= List.length csv /\
    (no_duplicate_rows csv -> drop_duplicates csv = csv) /\
    (List.length pre + rows_without_Category (drop_duplicates csv)
     = List.length (drop_duplicates csv))%nat /\
    (List.length out + rows_outside_fence pre = List.length pre)%nat.
Proof.
  intros H. apply readCsvAndCleanData_Ok in H as (m & _ & _ & Hpre & ->).
  exists (cleaned_rows csv m).
  pose proof (drop_duplicates_from_length [] csv) as Hdd.
  fold (drop_duplicates csv) in Hdd.
  assert (Hcat : (List.length (cleaned_rows csv m)
                  + rows_without_Category (drop_duplicates csv)
                  = List.length (drop_duplicates csv))%nat).
  { unfold cleaned_rows, dropna_Category, rows_without_Category.
    rewrite length_map. apply filter_length. }
  assert (Hout : (List.length (remove_outliers (cleaned_rows csv m))
                  + rows_outside_fence (cleaned_rows csv m)
                  = List.length (cleaned_rows csv m))%nat).
  { unfold remove_outliers, rows_outside_fence. apply filter_length. }
  repeat split; try assumption; try lia.
  apply drop_duplicates_distinct.
Qed.

Lemma row_count_accounting_witness :
  exists pre,
    clean_columns scenario_csv = Ok pre /\
    List.length (remove_outliers (cleaned_rows scenario_csv 5)) <= List.length scenario_csv /\
    List.length (drop_duplicates scenario_csv) <= List.length scenario_csv /\
    (no_duplicate_rows scenario_csv -> drop_duplicates scenario_csv = scenario_csv) /\
    (List.length pre + rows_without_Category (drop_duplicates scenario_csv)
     = List.length (drop_duplicates scenario_csv))%nat /\
    (List.length (remove_outliers (cleaned_rows scenario_csv 5)) + rows_outside_fence pre
     = List.length pre)%nat.
Proof.
  apply (@row_count_accounting scenario_csv).
  vm_compute. reflexivity.
Defined.

(** C7 as stated fails: the six rows below are pairwise distinct and all
    have a Category, yet only five are returned; the fence removed one. *)
Lemma fence_lowers_the_row_count :
  no_duplicate_rows cascade_csv /\
  forallb category_present cascade_csv = true /\
  exists out,
    readCsvAndCleanData cascade_csv = Ok out /\
    List.length out = 5%nat /\ List.length cascade_csv = 6%nat.
Proof.
  split.
  { simpl. repeat split; repeat constructor. }
  split; [reflexivity|].
  exists (remove_outliers (cleaned_rows cascade_csv 5)).
  repeat split; vm_compute; reflexivity.
Qed.

(** ** C8: the Discount total of every Category *)

Lemma insert_text_In (c x : string) (l : list string) :
  In x (insert_text c l) <-> x = c \/ In x l.
Proof.
  induction l as [|d l IH]; simpl; [intuition|].
  destruct (String.leb c d); simpl; rewrite ?IH; intuition.
Qed.

Lemma sort_text_In (x : string) (l : list string) : In x (sort_text l) <-> In x l.
Proof.
  induction l as [|c l IH]; simpl; [tauto|].
  rewrite insert_text_In, IH. intuition.
Qed.

Lemma insert_text_NoDup (c : string) (l : list string) :
  ~ In c l -> NoDup l -> NoDup (insert_text c l).
Proof.
  induction l as [|d l IH]; simpl; intros Hc Hl.
  - constructor; [tauto|constructor].
  - destruct (String.leb c d).
    + constructor; [simpl; tauto|assumption].
    + inversion Hl as [|? ? Hd Hl']; subst. constructor.
      * rewrite insert_text_In. intros [->|H]; tauto.
      * apply IH; tauto.
Qed.

Lemma sort_text_NoDup (l : list string) : NoDup l -> NoDup (sort_text l).
Proof.
  induction 1 as [|c l Hc Hl IH]; simpl; [constructor|].
  apply insert_text_NoDup; [|assumption]. now rewrite sort_text_In.
Qed.



Lemma present_categories_In (c : string) (s : list (option string)) :
  In c (present_categories s) <-> In (Some c) s.
Proof.
  induction s as [|[d|] s IH]; simpl; [tauto| |].
  - rewrite IH. split; intros [H|H]; auto; left; congruence.
  - rewrite IH. split; [auto|]. intros [H|H]; [discriminate|assumption].
Qed.



(** ** C9: the wrangler adds two columns and changes nothing else *)

(** C9.  The rows of the table that [performDataWrangling] returns are, in
    the same order and number, the rows it was given, each with its seven
    original cells unchanged and the two derived cells added. *)
Theorem performDataWrangling_only_adds_columns (cleaned_df : DataFrame) :
  map original (fst (performDataWrangling cleaned_df)) = cleaned_df /\
  List.length (fst (performDataWrangling cleaned_df)) = List.length cleaned_df /\
  forall i r, nth_error cleaned_df i = Some r ->
    exists w, nth_error (fst (performDataWrangling cleaned_df)) i = Some w /\
              original w = r.
Proof.
  rewrite performDataWrangling_rows, map_map, length_map. simpl.
  split; [apply map_id|]. split; [reflexivity|].
  intros i r Hi. rewrite nth_error_map, Hi. simpl. eauto.
Qed.

Lemma performDataWrangling_only_adds_columns_witness :
  exists w,
    nth_error (fst (performDataWrangling
                      [mkRow 30 (Some "F"%string) 100 20 (Some 5%Z) (Some "A"%string) 0]))
              0 = Some w /\
    original w = mkRow 30 (Some "F"%string) 100 20 (Some 5%Z) (Some "A"%string) 0.
Proof.
  apply (performDataWrangling_only_adds_columns
           [mkRow 30 (Some "F"%string) 100 20 (Some 5%Z) (Some "A"%string) 0]).
  reflexivity.
Defined.

(** ** C10: the analyzer reads, the program writes what the wrangler returned *)

(** C10.  [performEDA] leaves the frame it is handed as it found it: it only
    adds to the console and to the figures.  The rows written to the output
    file are therefore those that [performDataWrangling] returned. *)
Theorem performEDA_only_reads
    (Report : Type) (describe : list wrangled_row -> Report)
    (corr : list (float * float) -> Report)
    (pivot_table_mean_round2 groupby_mean_round2 : list wrangled_row -> Report) :
  (forall s : session Report,
     frame (performEDA describe corr pivot_table_mean_round2 groupby_mean_round2 s)
     = frame s) /\
  (forall csv o,
     main describe corr pivot_table_mean_round2 groupby_mean_round2 csv = Ok o ->
     exists cleaned,
       readCsvAndCleanData csv = Ok cleaned /\
       cleanFile o = fst (performDataWrangling cleaned) /\
       frame (final o) = fst (performDataWrangling cleaned)).
Proof.
  split; [reflexivity|].
  intros csv o. unfold main.
  destruct (readCsvAndCleanData csv) as [cleaned|e]; simpl; [|discriminate].
  intros H. inversion H; subst; clear H. exists cleaned. simpl. auto.
Qed.

Lemma performEDA_only_reads_witness :
  exists cleaned,
    readCsvAndCleanData scenario_csv = Ok cleaned /\
    [mkWrangled (mkRow 30 (Some "F"%string) 100 20 (Some 5%Z) (Some "A"%string) 0)
                (20 / 100) "Mature"]
    = fst (performDataWrangling cleaned) /\
    [mkWrangled (mkRow 30 (Some "F"%string) 100 20 (Some 5%Z) (Some "A"%string) 0)
                (20 / 100) "Mature"]
    = fst (performDataWrangling cleaned).
Proof.
  destruct (performEDA_only_reads (fun _ => tt) (fun _ => tt) (fun _ => tt) (fun _ => tt))
    as [_ H].
  apply (H scenario_csv
           (mkOutcome
              (performEDA (fun _ => tt) (fun _ => tt) (fun _ => tt) (fun _ => tt)
                 (mkSession
                    [mkWrangled (mkRow 30 (Some "F"%string) 100 20 (Some 5%Z)
                                       (Some "A"%string) 0) (20 / 100) "Mature"]
                    [PrintTable unit [("A"%string, 0)]] []))
              [mkWrangled (mkRow 30 (Some "F"%string) 100 20 (Some 5%Z)
                                 (Some "A"%string) 0) (20 / 100) "Mature"])).
  vm_compute. reflexivity.
Defined.

(** ** Further properties of the wrangler and of the specification's scenario *)

(** Mature Status is "Mature" exactly on the rows whose Age is at least 25,
    and "Not Mature" on the others (a missing Age among them). *)
Theorem Mature_Status_by_Age (cleaned_df : DataFrame) :
  Forall (fun w =>
            ((25 <=? Age (original w)) = true /\ Mature_Status w = "Mature"%string) \/
            ((25 <=? Age (original w)) = false /\ Mature_Status w = "Not Mature"%string))
         (fst (performDataWrangling cleaned_df)).
Proof.
  rewrite performDataWrangling_rows. apply Forall_forall. intros w Hw.
  apply in_map_iff in Hw as (r & <- & _). simpl. unfold mature_status.
  destruct (25 <=? Age r); auto.
Qed.

(** The scenario of the specification: a row given twice, with an empty
    Discount, leaves one row, Discount 0, Profit Margin 20/100, "Mature". *)
Theorem duplicate_row_scenario :
  readCsvAndCleanData scenario_csv
  = Ok [mkRow 30 (Some "F"%string) 100 20 (Some 5%Z) (Some "A"%string) 0] /\
  fst (performDataWrangling
         [mkRow 30 (Some "F"%string) 100 20 (Some 5%Z) (Some "A"%string) 0])
  = [mkWrangled (mkRow 30 (Some "F"%string) 100 20 (Some 5%Z) (Some "A"%string) 0)
                (20 / 100) "Mature"].
Proof. split; vm_compute; reflexivity. Qed.

(** ** Rows in order *)

Lemma subsequence_refl {A} (l : list A) : subsequence l l.
Proof. induction l; constructor; assumption. Qed.

Lemma subsequence_filter {A} (p : A -> bool) (l : list A) : subsequence (filter p l) l.
Proof.
  induction l as [|x l IH]; simpl; [constructor|].
  destruct (p x); constructor; assumption.
Qed.

Lemma subsequence_map {A B} (f : A -> B) (l l' : list A) :
  subsequence l l' -> subsequence (map f l) (map f l').
Proof. induction 1; simpl; constructor; assumption. Qed.

Lemma subsequence_trans {A} (l1 l2 l3 : list A) :
  subsequence l1 l2 -> subsequence l2 l3 -> subsequence l1 l3.
Proof.
  intros H12 H23. revert l1 H12.
  induction H23 as [|x l2 l3 H IH|x l2 l3 H IH]; intros l1 H12.
  - assumption.
  - constructor. now apply IH.
  - inversion H12; subst; constructor; now apply IH.
Qed.

Lemma subsequence_drop_duplicates_from (seen : list raw_row) (df : RawFrame) :
  subsequence (drop_duplicates_from seen df) df.
Proof.
  revert seen. induction df as [|r df IH]; intros seen; simpl; [constructor|].
  destruct (existsb (raw_row_same r) seen); constructor; apply IH.
Qed.

(** ** drop_duplicates, further *)

Lemma drop_duplicates_from_fresh (seen : list raw_row) (df : RawFrame) :
  no_duplicate_rows (drop_duplicates_from seen df) /\
  Forall (fun r => existsb (raw_row_same r) seen = false) (drop_duplicates_from seen df).
Proof.
  revert seen. induction df as [|r df IH]; intros seen; simpl; [split; constructor|].
  destruct (existsb (raw_row_same r) seen) eqn:E; [apply IH|].
  destruct (IH (r :: seen)) as [Hd Hs]. simpl. repeat split.
  - eapply Forall_impl; [|exact Hs]. simpl. intros r' H.
    now apply orb_false_elim in H as [H _].
  - assumption.
  - constructor; [assumption|].
    eapply Forall_impl; [|exact Hs]. simpl. intros r' H.
    now apply orb_false_elim in H as [_ H].
Qed.

(** After [drop_duplicates] no row equals an earlier one, a second
    [drop_duplicates] changes nothing, the rows that stay are in their
    original order, the first row always stays, and every row of the input
    is, or equals, a row that stays. *)
Theorem drop_duplicates_leaves_distinct_rows (csv : RawFrame) :
  no_duplicate_rows (drop_duplicates csv) /\
  drop_duplicates (drop_duplicates csv) = drop_duplicates csv /\
  subsequence (drop_duplicates csv) csv /\
  hd_error (drop_duplicates csv) = hd_error csv /\
  (forall r, In r csv ->
     exists s, In s (drop_duplicates csv) /\ (s = r \/ raw_row_same r s = true)).
Proof.
  pose proof (drop_duplicates_from_fresh [] csv) as [Hd _].
  repeat split.
  - exact Hd.
  - now apply drop_duplicates_distinct.
  - apply subsequence_drop_duplicates_from.
  - destruct csv; reflexivity.
  - intros r Hr.
    destruct (drop_duplicates_from_covers [] csv r Hr) as (s & [[]|Hs] & Hsame).
    now exists s.
Qed.

(** Rows are compared as they were read, not by what the conversions make of
    them later: rows that differ in the spelling of a number or of a date
    are not duplicates. *)
Lemma rows_that_read_alike_are_kept :
  drop_duplicates read_alike_csv = read_alike_csv.
Proof. vm_compute. reflexivity. Qed.


(** ** The cleaner, further *)

(** The cleaner never reorders rows: the table it returns is, in the input's
    order, a selection of the input rows, each finished with the same three
    medians and the same modal date. *)
Theorem cleaner_keeps_the_row_order (csv : RawFrame) (out : DataFrame) :
  readCsvAndCleanData csv = Ok out ->
  exists AgeMedian salesMedian profitsMedian modal_date,
    subsequence out (map (finish_row AgeMedian salesMedian profitsMedian modal_date) csv).
Proof.
  intros H. apply readCsvAndCleanData_Ok in H as (m & _ & _ & _ & ->).
  exists (fill_median (col Age (drop_duplicates csv))),
         (fill_median (col Sales (drop_duplicates csv))),
         (fill_median (col Profit (drop_duplicates csv))), m.
  eapply subsequence_trans; [apply subsequence_filter|].
  unfold cleaned_rows. apply subsequence_map.
  eapply subsequence_trans; [apply subsequence_filter|].
  apply subsequence_drop_duplicates_from.
Qed.

Lemma cleaner_keeps_the_row_order_witness :
  exists AgeMedian salesMedian profitsMedian modal_date,
    subsequence (remove_outliers (cleaned_rows cascade_csv 5))
                (map (finish_row AgeMedian salesMedian profitsMedian modal_date) cascade_csv).
Proof.
  apply (@cleaner_keeps_the_row_order cascade_csv). vm_compute. reflexivity.
Defined.




(** When every Age cell is a number and no Date cell is a valid date, as on
    a table without rows, [mode()[0]] has nothing to return: the cleaner
    raises [KeyError] and the program ends without an outcome. *)
Theorem no_valid_date_raises_KeyError
    (Report : Type) (describe : list wrangled_row -> Report)
    (corr : list (float * float) -> Report)
    (pivot_table_mean_round2 groupby_mean_round2 : list wrangled_row -> Report)
    (csv : RawFrame) :
  forallb numeric (col Age csv) = true ->
  existsb valid_date (col Date csv) = false ->
  readCsvAndCleanData csv = Raise KeyError /\
  main describe corr pivot_table_mean_round2 groupby_mean_round2 csv = Raise KeyError.
Proof.
  intros HAge HDate.
  assert (H : readCsvAndCleanData csv = Raise KeyError).
  { unfold readCsvAndCleanData. rewrite clean_columns_rows.
    rewrite Age_numeric_after_drop_duplicates, HAge.
    rewrite mode_empty; [reflexivity|].
    unfold to_datetime_coerce. rewrite existsb_map.
    rewrite <- Date_valid_after_drop_duplicates in HDate. exact HDate. }
  split; [exact H|]. unfold main. now rewrite H.
Qed.

Lemma no_valid_date_raises_KeyError_witness :
  readCsvAndCleanData [] = Raise KeyError /\
  main (fun _ => tt) (fun _ => tt) (fun _ => tt) (fun _ => tt) [] = Raise KeyError.
Proof.
  apply no_valid_date_raises_KeyError; reflexivity.
Defined.

(** The Gender step leaves every row with a Gender that is neither missing
    nor empty, changes no other column, and changes nothing when it is
    applied a second time. *)
Theorem Gender_step {A S P D Di} (df : list (row A S P D Di)) :
  Forall (fun r => exists g, Gender r = Some g /\ g <> ""%string) (clean_Gender df) /\
  clean_Gender (clean_Gender df) = clean_Gender df /\
  map (fun r => set_Gender r None) (clean_Gender df) = map (fun r => set_Gender r None) df.
Proof.
  rewrite !clean_Gender_rows. repeat split.
  - apply Forall_forall. intros r Hr. apply in_map_iff in Hr as (r0 & <- & _). simpl.
    destruct (Gender r0) as [g|]; simpl.
    + destruct (g =? "")%string eqn:E.
      * exists "Other"%string. split; [reflexivity|discriminate].
      * exists g. split; [reflexivity|]. now apply String.eqb_neq.
    + exists "Other"%string. split; [reflexivity|discriminate].
  - rewrite map_map. apply map_ext. intros r. unfold set_Gender. simpl. f_equal.
    destruct (Gender r) as [g|]; simpl; [|reflexivity].
    destruct (g =? "")%string eqn:E; simpl; [reflexivity|]. now rewrite E.
  - rewrite map_map. reflexivity.
Qed.

(** ** Missing values in comparisons and quotients *)

Lemma ltb_nan (x y : float) : is_nan x = true \/ is_nan y = true -> (x <? y) = false.
Proof.
  rewrite !is_nan_spec, ltb_spec. unfold SFltb.
  destruct (Prim2SF x) as [sx|sx| |sx mx ex], (Prim2SF y) as [sy|sy| |sy my ey];
    intros [H|H]; try discriminate; reflexivity.
Qed.

Lemma leb_nan (x y : float) : is_nan x = true \/ is_nan y = true -> (x <=? y) = false.
Proof.
  rewrite !is_nan_spec, leb_spec. unfold SFleb.
  destruct (Prim2SF x) as [sx|sx| |sx mx ex], (Prim2SF y) as [sy|sy| |sy my ey];
    intros [H|H]; try discriminate; reflexivity.
Qed.

Lemma div_nan (x y : float) : is_nan x = true \/ is_nan y = true -> is_nan (x / y) = true.
Proof.
  rewrite !is_nan_spec, div_spec. unfold SF64div, SFdiv.
  destruct (Prim2SF x) as [sx|sx| |sx mx ex], (Prim2SF y) as [sy|sy| |sy my ey];
    intros [H|H]; try discriminate; reflexivity.
Qed.

(** A row whose Age is missing is labelled "Not Mature", and the Profit
    Margin of a row whose Profit or Sales is missing is missing. *)
Theorem wrangler_on_missing_values (cleaned_df : DataFrame) :
  Forall (fun w =>
            (is_nan (Age (original w)) = true -> Mature_Status w = "Not Mature"%string) /\
            (is_nan (Profit (original w)) = true \/ is_nan (Sales (original w)) = true ->
             is_nan (Profit_Margin w) = true))
         (fst (performDataWrangling cleaned_df)).
Proof.
  rewrite performDataWrangling_rows. apply Forall_forall. intros w Hw.
  apply in_map_iff in Hw as (r & <- & _). simpl. split.
  - intros H. unfold mature_status. rewrite leb_nan; [reflexivity|now right].
  - apply div_nan.
Qed.

Lemma wrangler_on_missing_values_witness :
  Mature_Status (mkWrangled (mkRow nan (Some "F"%string) nan 20 (Some 5%Z)
                                   (Some "A"%string) 0) nan "Not Mature")
  = "Not Mature"%string /\
  is_nan (Profit_Margin (mkWrangled (mkRow nan (Some "F"%string) nan 20 (Some 5%Z)
                                           (Some "A"%string) 0) nan "Not Mature")) = true.
Proof.
  pose proof (wrangler_on_missing_values
                [mkRow nan (Some "F"%string) nan 20 (Some 5%Z) (Some "A"%string) 0]) as H.
  rewrite Forall_forall in H.
  destruct (H (mkWrangled (mkRow nan (Some "F"%string) nan 20 (Some 5%Z)
                                 (Some "A"%string) 0) nan "Not Mature")) as [H1 H2].
  - left. vm_compute. reflexivity.
  - split; [apply H1; reflexivity|apply H2; right; reflexivity].
Defined.

(** ** The fence at the edges *)

Lemma dropna_all_missing (s : list float) :
  forallb is_nan s = true -> dropna s = [].
Proof.
  induction s as [|x s IH]; simpl; [reflexivity|].
  intros H. apply andb_prop in H as [Hx Hs]. rewrite Hx. simpl. now apply IH.
Qed.

(** The fence never removes a row whose Sales value is missing, and it removes
    no row at all from a frame whose Sales column holds no number. *)
Theorem fence_and_missing_Sales (df : DataFrame) :
  (forall r, In r df -> is_nan (Sales r) = true -> In r (remove_outliers df)) /\
  (forallb is_nan (col Sales df) = true -> remove_outliers df = df).
Proof.
  split.
  - intros r Hr Hn. unfold remove_outliers. apply filter_In. split; [assumption|].
    unfold not_outlying. rewrite !ltb_nan by auto. reflexivity.
  - intros H. unfold remove_outliers. apply filter_all, Forall_forall. intros r Hr.
    unfold not_outlying. rewrite !ltb_nan; [reflexivity| |].
    + left. unfold upperB, interQuartRange, higher_range, lower_range, quantile.
      rewrite (dropna_all_missing _ H). reflexivity.
    + right. unfold lowerB, interQuartRange, higher_range, lower_range, quantile.
      rewrite (dropna_all_missing _ H). reflexivity.
Qed.

Lemma fence_and_missing_Sales_witness :
  remove_outliers [mkRow 30 (Some "F"%string) nan 20 (Some 5%Z) (Some "A"%string) 0]
  = [mkRow 30 (Some "F"%string) nan 20 (Some 5%Z) (Some "A"%string) 0].
Proof.
  apply (fence_and_missing_Sales
           [mkRow 30 (Some "F"%string) nan 20 (Some 5%Z) (Some "A"%string) 0]).
  reflexivity.
Defined.

(** ** The median that fills a column, further *)



Lemma SFsub_self_finite (s : bool) (m : positive) (e : Z) :
  SFsub prec emax (S754_finite s m e) (S754_finite s m e) = S754_zero false.
Proof.
  unfold SFsub. rewrite Z.sub_diag. reflexivity.
Qed.

Lemma SFcompare_refl_finite (s : bool) (m : positive) (e : Z) :
  SFcompare (S754_finite s m e) (S754_finite s m e) = Some Eq.
Proof.
  simpl. destruct s; rewrite Z.compare_refl, Pos.compare_cont_refl; reflexivity.
Qed.

Lemma single_quantile (x : float) (k : nat) :
  is_nan x = false -> quantile [x] k = x + (x - x) * 0.
Proof.
  intros Hn. unfold quantile, dropna. simpl. rewrite Hn. simpl.
  rewrite Nat.mul_0_r. reflexivity.
Qed.

Lemma single_row_fence (x : float) :
  not_outlying (lowerB [x]) (upperB [x]) x = true.
Proof.
  unfold not_outlying.
  destruct (is_nan x) eqn:Hn; [rewrite !ltb_nan by auto; reflexivity|].
  unfold lowerB, upperB, interQuartRange, higher_range, lower_range.
  rewrite !single_quantile by assumption.
  rewrite is_nan_spec in Hn.
  rewrite !ltb_spec, !sub_spec, !add_spec, !mul_spec, !sub_spec, !add_spec, !mul_spec,
    !sub_spec.
  change (Prim2SF 0) with (S754_zero false).
  change (Prim2SF 1.5) with (S754_finite false 6755399441055744 (-52)).
  destruct (Prim2SF x) as [[|]|[|]| |s m e]; try discriminate; try reflexivity.
  unfold SF64sub. rewrite SFsub_self_finite.
  cbn [SF64mul SFmul SF64add SFadd xorb].
  rewrite SFsub_self_finite.
  cbn [SF64mul SFmul SF64add SFadd SFsub xorb].
  unfold SFltb. rewrite SFcompare_refl_finite. reflexivity.
Qed.

(** A frame of one row always comes through the fence, whatever its Sales
    value is. *)
Theorem single_row_survives_the_fence (r : clean_row) :
  remove_outliers [r] = [r].
Proof.
  unfold remove_outliers. simpl. now rewrite single_row_fence.
Qed.

(** ** The output file *)

Lemma main_Ok
    (Report : Type) (describe : list wrangled_row -> Report)
    (corr : list (float * float) -> Report)
    (pivot_table_mean_round2 groupby_mean_round2 : list wrangled_row -> Report)
    (csv : RawFrame) (o : outcome Report) :
  main describe corr pivot_table_mean_round2 groupby_mean_round2 csv = Ok o ->
  exists cleaned,
    readCsvAndCleanData csv = Ok cleaned /\
    cleanFile o = fst (performDataWrangling cleaned).
Proof.
  unfold main. destruct (readCsvAndCleanData csv) as [cleaned|e]; [|discriminate].
  intros H. exists cleaned. split; [reflexivity|].
  unfold bind in H. inversion H. reflexivity.
Qed.

(** When the program ends normally, the file it wrote has at most as many
    rows as the input, and every row of it has a Category, a Date, a
    Discount that is a number, a Gender that is neither missing nor empty,
    and a Mature Status that is one of the two labels. *)
Theorem output_file_rows
    (Report : Type) (describe : list wrangled_row -> Report)
    (corr : list (float * float) -> Report)
    (pivot_table_mean_round2 groupby_mean_round2 : list wrangled_row -> Report)
    (csv : RawFrame) (o : outcome Report) :
  main describe corr pivot_table_mean_round2 groupby_mean_round2 csv = Ok o ->
  List.length (cleanFile o) <= List.length csv /\
  Forall (fun w =>
            Category (original w) <> None /\
            Date (original w) <> None /\
            is_nan (Discount (original w)) = false /\
            (exists g, Gender (original w) = Some g /\ g <> ""%string) /\
            (Mature_Status w = "Mature"%string \/ Mature_Status w = "Not Mature"%string))
         (cleanFile o).
Proof.
  intros H. apply main_Ok in H as (cleaned & Hrun & ->).
  rewrite performDataWrangling_rows.
  apply readCsvAndCleanData_Ok in Hrun as (m & _ & _ & _ & ->).
  split.
  - rewrite length_map. unfold remove_outliers, cleaned_rows, dropna_Category.
    pose proof (drop_duplicates_from_length [] csv) as Hdd.
    fold (drop_duplicates csv) in Hdd.
    eapply Nat.le_trans; [apply filter_length_le|]. rewrite length_map.
    eapply Nat.le_trans; [apply filter_length_le|]. exact Hdd.
  - apply Forall_forall. intros w Hw. apply in_map_iff in Hw as (r & <- & Hr). simpl.
    apply In_remove_outliers in Hr as [Hr _].
    unfold cleaned_rows in Hr. apply in_map_iff in Hr as (r0 & <- & Hr0).
    apply filter_In in Hr0 as [_ Hc].
    pose proof (finish_row_filled
                  (fill_median (col Age (drop_duplicates csv)))
                  (fill_median (col Sales (drop_duplicates csv)))
                  (fill_median (col Profit (drop_duplicates csv))) m r0 Hc)
      as (F1 & F2 & F3 & F4 & F5 & _).
    repeat split; try assumption.
    + destruct (Gender (finish_row _ _ _ m r0)) as [g|] eqn:E; [|congruence].
      exists g. split; [reflexivity|]. congruence.
    + unfold mature_status. destruct (25 <=? _); auto.
Qed.

Lemma output_file_rows_witness :
  List.length (cleanFile
     (mkOutcome
        (performEDA (fun _ => tt) (fun _ => tt) (fun _ => tt) (fun _ => tt)
           (mkSession (fst (performDataWrangling (remove_outliers (cleaned_rows scenario_csv 5))))
              [PrintTable unit (snd (performDataWrangling
                                       (remove_outliers (cleaned_rows scenario_csv 5))))] []))
        (fst (performDataWrangling (remove_outliers (cleaned_rows scenario_csv 5))))))
  <= List.length scenario_csv.
Proof.
  apply (@output_file_rows unit (fun _ => tt) (fun _ => tt) (fun _ => tt) (fun _ => tt)
           scenario_csv).
  vm_compute. reflexivity.
Defined.

(** ** Repeated rows *)

Lemma float_same_refl (x : float) : float_same x x = true.
Proof. unfold float_same, is_nan. now destruct (x =? x). Qed.

Lemma numcell_same_refl (c : numcell) : numcell_same c c = true.
Proof.
  destruct c; simpl;
    rewrite ?float_same_refl, ?String.eqb_refl, ?Z.eqb_refl; reflexivity.
Qed.

Lemma datecell_same_refl (c : datecell) : datecell_same c c = true.
Proof. destruct c; simpl; rewrite ?String.eqb_refl, ?Z.eqb_refl; reflexivity. Qed.

Lemma text_same_refl (c : option string) : text_same c c = true.
Proof. destruct c; simpl; rewrite ?String.eqb_refl; reflexivity. Qed.

Lemma raw_row_same_refl (r : raw_row) : raw_row_same r r = true.
Proof.
  unfold raw_row_same.
  now rewrite !numcell_same_refl, !datecell_same_refl, !text_same_refl.
Qed.

Lemma drop_duplicates_from_app (seen : list raw_row) (l1 l2 : RawFrame) :
  drop_duplicates_from seen (l1 ++ l2) =
  drop_duplicates_from seen l1
  ++ drop_duplicates_from (rev (drop_duplicates_from seen l1) ++ seen) l2.
Proof.
  revert seen. induction l1 as [|r l1 IH]; intros seen; simpl; [reflexivity|].
  destruct (existsb (raw_row_same r) seen); [apply IH|].
  simpl. rewrite IH, <- app_assoc. reflexivity.
Qed.

(** Repeated rows do not weigh on the medians, the modal date or the fence:
    the cleaner returns the same on a table and on that table without its
    duplicate rows, and appending a copy of a row of the table changes
    nothing of what it returns. *)
Theorem repeated_rows_do_not_weigh (csv : RawFrame) :
  readCsvAndCleanData (drop_duplicates csv) = readCsvAndCleanData csv /\
  forall r, In r csv -> readCsvAndCleanData (csv ++ [r]) = readCsvAndCleanData csv.
Proof.
  assert (Hidem : drop_duplicates (drop_duplicates csv) = drop_duplicates csv).
  { apply drop_duplicates_distinct. apply (drop_duplicates_from_fresh [] csv). }
  split; [unfold readCsvAndCleanData, clean_columns; now rewrite Hidem|].
  intros r Hr.
  assert (Happ : drop_duplicates (csv ++ [r]) = drop_duplicates csv).
  { unfold drop_duplicates. rewrite drop_duplicates_from_app. simpl.
    destruct (drop_duplicates_from_covers [] csv r Hr) as (s & [[]|Hs] & Hsame).
    assert (E : existsb (raw_row_same r) (rev (drop_duplicates_from [] csv) ++ []) = true).
    { apply existsb_exists. exists s. split.
      - apply in_or_app. left. now apply in_rev in Hs.
      - destruct Hsame as [->|H]; [apply raw_row_same_refl|exact H]. }
    rewrite E. apply app_nil_r. }
  unfold readCsvAndCleanData, clean_columns. now rewrite Happ.
Qed.

Lemma repeated_rows_do_not_weigh_witness :
  readCsvAndCleanData (cascade_csv ++ [sample_row 21 1 5]) = readCsvAndCleanData cascade_csv.
Proof.
  apply (repeated_rows_do_not_weigh cascade_csv). left. reflexivity.
Defined.

(** ** The groups of the Discount table *)

Lemma list_sum_map_add {A} (a b : A -> nat) (l : list A) :
  list_sum (map (fun x => (a x + b x)%nat) l) = (list_sum (map a l) + list_sum (map b l))%nat.
Proof. induction l as [|x l IH]; simpl; [reflexivity|]. rewrite IH. lia. Qed.

Lemma one_key_matches (d : string) (ks : list string) :
  NoDup ks ->
  list_sum (map (fun c => if String.eqb d c then 1%nat else 0%nat) ks)
  = if in_dec string_dec d ks then 1%nat else 0%nat.
Proof.
  induction 1 as [|c ks Hc Hks IH]; simpl; [reflexivity|].
  rewrite IH. destruct (String.eqb_spec d c) as [->|Hne].
  - destruct (string_dec c c) as [Ecc|Ecc]; [|congruence].
    destruct (in_dec string_dec c ks); [contradiction|reflexivity].
  - destruct (string_dec c d) as [E|E]; [congruence|].
    destruct (in_dec string_dec d ks); reflexivity.
Qed.

Lemma list_sum_zero {A} (l : list A) : list_sum (map (fun _ => 0%nat) l) = 0%nat.
Proof. induction l; simpl; auto. Qed.

Lemma groups_partition (ks : list string) (df : DataFrame) :
  NoDup ks ->
  (forall d, In (Some d) (col Category df) -> In d ks) ->
  list_sum (map (fun c => List.length (filter (in_group c) df)) ks)
  = List.length (filter category_present df).
Proof.
  intros Hks. induction df as [|r df IH]; intros Hin.
  - simpl. apply list_sum_zero.
  - assert (E : forall c, List.length (filter (in_group c) (r :: df))
                = ((if in_group c r then 1 else 0)
                   + List.length (filter (in_group c) df))%nat).
    { intros c. simpl. destruct (in_group c r); reflexivity. }
    rewrite (map_ext _ _ E), list_sum_map_add, IH by (intros d Hd; apply Hin; now right).
    simpl. unfold in_group, category_present.
    destruct (Category r) as [d|] eqn:Hd.
    + rewrite (one_key_matches d Hks).
      destruct (in_dec string_dec d ks) as [_|Hn]; [reflexivity|].
      exfalso. apply Hn, Hin. left. exact Hd.
    + now rewrite list_sum_zero.
Qed.

Lemma group_sum_from_dropna (sumx c : float) (vals : list float) :
  group_sum_from sumx c (dropna vals) = group_sum_from sumx c vals.
Proof.
  revert sumx c. induction vals as [|v vals IH]; intros sumx c; simpl; [reflexivity|].
  destruct (is_nan v) eqn:Hv; simpl; [apply IH|]. rewrite Hv. apply IH.
Qed.

Lemma discount_table_keys (cleaned_df : DataFrame) :
  map fst (snd (performDataWrangling cleaned_df)) = group_keys cleaned_df.
Proof.
  unfold performDataWrangling, discountByProducts. simpl.
  rewrite map_map. simpl. apply map_id.
Qed.

(** Every row that has a Category is counted in exactly one line of the
    printed Discount table: the sizes of the groups add up to the number of
    rows with a Category.  A missing Discount adds nothing to a total. *)
Theorem discount_groups_partition_the_rows (cleaned_df : DataFrame) :
  list_sum (map (fun c => List.length (filter (in_group c) cleaned_df))
                (map fst (snd (performDataWrangling cleaned_df))))
  = List.length (filter category_present cleaned_df) /\
  (forall vals, group_sum (dropna vals) = group_sum vals).
Proof.
  split; [|intros vals; apply group_sum_from_dropna].
  rewrite discount_table_keys. unfold group_keys.
  apply groups_partition.
  - apply sort_text_NoDup, NoDup_nodup.
  - intros d Hd. now apply sort_text_In, nodup_In, present_categories_In.
Qed.
